(* ===== verification/_CoqProject ===== *)
-Q . S2P
Prelude.v
PyStr.v
Hardware.v
Status.v
Fan.v
Joystick.v
Thermal.v
Photo.v
Logger.v
MainLoop.v
Race.v
