(* ===== verification/Prelude.v ===== *)
(** * A verification development of the pigreenhouse controller

    The program, [src/sensor.py], is a single Python 2 script that runs on
    a Raspberry Pi with a Sense HAT.  It has these parts:

    - configuration constants and the success picture (lines 19-52);
    - two thermal probes [get_cpu_temp] and [get_gpu_temp] (56-66) that
      parse the text printed by the firmware;
    - [ProgressPercentage] (69-85), the upload progress callback;
    - the status indicator [display_error_led] / [display_success_led]
      (88-94), which share pixel (0,0) of the 8x8 LED matrix;
    - the capture pipeline [save_photo] (97-112) and [log_sensor]
      (115-147): capture a photo, upload it to S3, build one record of the
      sensors, put it into the DynamoDB table and append it to [log.txt];
    - the fan controller [start_fan], [stop_fan] and the thermostat
      [turn_on_fan_if_hot] (149-171);
    - two joystick handlers [on_joy_up] (fan) and [on_joy_down] (second
      relay, pixel (0,2)) (174-197) that the Sense HAT library calls on its
      own thread;
    - the main loop [main] (199-211): forever log, check the temperature,
      sleep; a keyboard interrupt or any other exception ends the process
      with exit code 0.

    The three module-level flags [is_fan_on], [is_relay2_on] and
    [is_log_save_success] are shared by the main loop and the joystick
    thread without any lock.

    ** Files

    - [Prelude] (this file): the Python execution model shared by all
      files.  A Python statement sequence is a function of the state that
      returns either a value or a raised exception ([res]) together with the
      state reached so far ([PyM S A := S -> res A * S]): side effects made
      before an exception stay, as in Python.  [try_except] models
      [try/except] with a predicate that says which exceptions a clause
      catches ([catch_all] for a bare [except:], [is_Exception] for
      [except Exception], [is_ClientError] for [except ClientError]).
      Also the tactics and the hint database [pyg] used everywhere.
    - [PyStr]: the Python builtins the log line is made of: [str.replace]
      ([py_replace]), [repr] of a string and of an int, [str] of a dict.
      These are the language's, not the program's, and are not mapped.
    - [Hardware]: the world the script drives: the Sense HAT frame buffer
      ([set_pixel], [set_pixels], [clear] with their [ValueError]s), the two
      active-low [OutputDevice]s on GPIO 17 and 27, the fan animation, the
      camera, S3, the DynamoDB table, the local file system, stdout and the
      clock.  The outside world (sensor values, camera and network outcomes,
      keyboard interrupts) is a record [Env] of functions of the clock, a
      section variable of every operation: every theorem holds for every
      environment.  The libraries themselves (sense_hat, gpiozero,
      picamera, boto3) are not modelled beyond these effects.
    - [Status]: [display_error_led], [display_success_led].
    - [Fan]: [start_fan], [stop_fan], [turn_on_fan_if_hot], with
      [temp_utils] and [fan_animation] (not under src/) modelled from the
      spec; the thermostat contract of spec 4.1 as an abstract
      [thermostat_spec] and its refinement.
    - [Joystick]: the joystick events, [on_joy_up], [on_joy_down] and the
      delivery of a sequence of events [dispatch_down].
    - [Thermal]: [get_cpu_temp] and [get_gpu_temp] over Python's [float()].
    - [Photo]: [ProgressPercentage] and [save_photo].
    - [Logger]: the record [Item], the log line, [log_sensor] (split into
      the photo part and [log_record], the rest of the function).
    - [MainLoop]: [main] as a loop over cycles with fuel and the outcomes
      of a run.
    - [Race]: the main loop and the joystick thread as two threads of
      atomic statements over the shared state and an interleaving step
      relation.  The lock the spec (section 5) asks for is not in the code
      and is not modelled.

    ** What the theorems show

    - [Fan]: the thermostat refines the bang-bang contract and keeps the
      flag, the relay and the animation in agreement ([fan_consistent]).
    - [Joystick]: each release toggles its relay exactly once, whatever the
      presses and holds; the up handler blocks for a second.
    - [Logger]: every outcome of [log_sensor] (photo error, interrupt during
      the capture, failed or rejected upload, success, refused record):
      what is stored, what the matrix shows, what propagates; each log line
      is one line.
    - [MainLoop]: the exit code is 0 on every path; the graceful and the
      fatal ending; a failed capture does not stop the loop; a refused
      record does, before the thermostat runs; [log.txt] only grows and the table only gains keys along
      every run (a [mono] property proved by composition); [n] successful
      cycles store [n] records and [n] lines; the local flag of
      [display_error_led] lets an error show green.
    - [Thermal]: round trips of the probes: for every reading the firmware
      prints, [get_cpu_temp] and [get_gpu_temp] return exactly its value.
    - [Photo]: the progress callback never divides by zero for a
      non-empty photo and its last line shows [100.00%].
    - [Race]: the threads compute what the sequential code computes; an
      interleaving leaves the fan flag on with the relay off, after which
      the thermostat never starts the fan.

    ** Fuel
    [main] is [while True]: [loop fuel] runs at most [fuel] cycles and
    returns normally when the fuel ends, so a theorem about [main fuel]
    holds for the first [fuel] cycles of the real run, for every [fuel];
    the statements that a run ends (interrupt, fatal error) are about the
    run raising, not about the fuel.  [run_thread] takes one unit per
    statement; the bounds 7 and 10 are the statement counts of the
    handlers ([on_joy_up_thread_refines] and
    [turn_on_fan_if_hot_thread_refines] show that they suffice).
    [py_replace] runs [str.replace] with fuel the length of the string,
    which is enough ([replace_fuel_enough]).

    ** Not modelled
    Python floats are modelled as exact rationals [Q]; [str] of a float is
    a section variable ([py_str_float]) because the log properties hold for
    any rendering.  The order of the keys of [str(dict)] is the literal
    order of the source (the script is Python 2, whose dicts print in hash
    order); the properties proved about the log line do not depend on it.
    [on_joy_down] shares only the frame buffer with the main thread and is
    not interleaved in [Race].  [float()] accepts the decimal numerals the
    script can meet; [inf] and [nan] are rejected (they have no rational
    value).
*)

From stdpp Require Export base list strings gmap.
From Stdlib Require Export QArith ZArith.

Declare Scope py_scope.
Delimit Scope py_scope with py.

(** ** Python exceptions raised in the program *)

Inductive exn : Type :=
  | KeyboardInterrupt
  | SystemExit (code : Z)
  | ClientError (code : string)     (** botocore.exceptions.ClientError *)
  | S3UploadFailedError             (** any other failure of upload_file *)
  | CameraError                     (** picamera.PiCameraError *)
  | SensorError                     (** an I2C read of the Sense HAT fails *)
  | ValueError
  | ZeroDivisionError
  | IOError.

#[export] Instance exn_eq_dec : EqDecision exn.
Proof. solve_decision. Defined.

(** [except Exception:] catches every exception but [KeyboardInterrupt]
    and [SystemExit], which derive from [BaseException] only. *)
Definition is_Exception (e : exn) : bool :=
  match e with
  | KeyboardInterrupt | SystemExit _ => false
  | _ => true
  end.

Definition is_ClientError (e : exn) : bool :=
  match e with ClientError _ => true | _ => false end.

(** A bare [except:] *)
Definition catch_all (e : exn) : bool := true.

(** ** The state and exception monad *)

Inductive res (A : Type) : Type :=
  | Ok (a : A)
  | Raise (e : exn).
Arguments Ok {A} a.
Arguments Raise {A} e.

Definition PyM (S A : Type) : Type := S -> res A * S.

Section Monad.
Context {S : Type}.

Definition ret {A} (a : A) : PyM S A := fun s => (Ok a, s).

Definition bind {A B} (m : PyM S A) (k : A -> PyM S B) : PyM S B :=
fun s => match m s with
         | (Ok a, s') => k a s'
         | (Raise e, s') => (Raise e, s')
         end.

Definition raise {A} (e : exn) : PyM S A := fun s => (Raise e, s).

Definition gets {A} (f : S -> A) : PyM S A := fun s => (Ok (f s), s).

Definition modify (f : S -> S) : PyM S unit := fun s => (Ok tt, f s).

(** [try: m except <catches> as e: h e] *)
Definition try_except {A} (catches : exn -> bool) (m : PyM S A)
  (h : exn -> PyM S A) : PyM S A :=
fun s => match m s with
         | (Raise e, s') => if catches e then h e s' else (Raise e, s')
         | r => r
         end.

(** [if b: m] *)
Definition when (b : bool) (m : PyM S unit) : PyM S unit :=
if b then m else ret tt.
End Monad.

Notation "x <- m ;; k" := (bind m (fun x => k))
  (at level 100, m at next level, right associativity) : py_scope.
Notation "m ;; k" := (bind m (fun _ : unit => k))
  (at level 100, right associativity) : py_scope.
Open Scope py_scope.

Definition is_ok {A} (r : res A) : bool := match r with Ok _ => true | Raise _ => false end.

(** The final state and the outcome of a run. *)
Definition outcome {S A} (m : PyM S A) (s : S) : res A := fst (m s).
Definition final {S A} (m : PyM S A) (s : S) : S := snd (m s).

(** ** Generic lemmas on the monad *)

Section MonadLemmas.
Context {S : Type}.

Lemma bind_Ok {A B} (m : PyM S A) (k : A -> PyM S B) s a s' :
m s = (Ok a, s') -> bind m k s = k a s'.
Proof. intros H. unfold bind. by rewrite H. Qed.

Lemma bind_Raise {A B} (m : PyM S A) (k : A -> PyM S B) s e s' :
m s = (Raise e, s') -> bind m k s = (Raise e, s').
Proof. intros H. unfold bind. by rewrite H. Qed.

Lemma bind_assoc {A B C} (m : PyM S A) (k : A -> PyM S B) (j : B -> PyM S C) s :
bind (bind m k) j s = bind m (fun a => bind (k a) j) s.
Proof. unfold bind. destruct (m s) as [[a|e] s']; reflexivity. Qed.

Lemma try_except_Ok {A} c (m : PyM S A) h s a s' :
m s = (Ok a, s') -> try_except c m h s = (Ok a, s').
Proof. intros H. unfold try_except. by rewrite H. Qed.

Lemma try_except_caught {A} c (m : PyM S A) h s e s' :
m s = (Raise e, s') -> c e = true -> try_except c m h s = h e s'.
Proof. intros H Hc. unfold try_except. by rewrite H, Hc. Qed.

Lemma try_except_uncaught {A} c (m : PyM S A) h s e s' :
m s = (Raise e, s') -> c e = false -> try_except c m h s = (Raise e, s').
Proof. intros H Hc. unfold try_except. by rewrite H, Hc. Qed.

(** A property of states that every step of a computation keeps, also
  when it raises. *)
Definition preserves {A} (P : S -> Prop) (m : PyM S A) : Prop :=
forall s, P s -> P (snd (m s)).

Lemma preserves_ret {A} P (a : A) : preserves P (ret a).
Proof. by intros s. Qed.

Lemma preserves_raise {A} P e : preserves P (@raise S A e).
Proof. by intros s. Qed.

Lemma preserves_gets {A} P (f : S -> A) : preserves P (gets f).
Proof. by intros s. Qed.

Lemma preserves_bind {A B} P (m : PyM S A) (k : A -> PyM S B) :
preserves P m -> (forall a, preserves P (k a)) -> preserves P (bind m k).
Proof.
intros Hm Hk s Hs. unfold bind. specialize (Hm s Hs).
destruct (m s) as [[a|e] s']; [by apply Hk | done].
Qed.

Lemma preserves_try {A} P c (m : PyM S A) h :
preserves P m -> (forall e, preserves P (h e)) -> preserves P (try_except c m h).
Proof.
intros Hm Hh s Hs. unfold try_except. specialize (Hm s Hs).
destruct (m s) as [[a|e] s']; [done|]. destruct (c e); [by apply Hh | done].
Qed.

Lemma preserves_if {A} P (b : bool) (m1 m2 : PyM S A) :
preserves P m1 -> preserves P m2 -> preserves P (if b then m1 else m2).
Proof. by destruct b. Qed.

Lemma preserves_when P b (m : PyM S unit) :
preserves P m -> preserves P (when b m).
Proof. destruct b; [done | apply preserves_ret]. Qed.
(** A computation that leaves a projection of the state alone, also
  when it raises. *)
Definition keeps {A T} (f : S -> T) (m : PyM S A) : Prop :=
forall s, f (snd (m s)) = f s.

Lemma keeps_ret {A T} (f : S -> T) (a : A) : keeps f (ret a).
Proof. by intros s. Qed.

Lemma keeps_raise {A T} (f : S -> T) e : keeps f (@raise S A e).
Proof. by intros s. Qed.

Lemma keeps_gets {A T} (f : S -> T) (g : S -> A) : keeps f (gets g).
Proof. by intros s. Qed.

Lemma keeps_bind {A B T} (f : S -> T) (m : PyM S A) (k : A -> PyM S B) :
keeps f m -> (forall a, keeps f (k a)) -> keeps f (bind m k).
Proof.
intros Hm Hk s. unfold bind. specialize (Hm s).
destruct (m s) as [[a|e] s'] eqn:?; simpl in *; [by rewrite Hk | done].
Qed.

Lemma keeps_try {A T} (f : S -> T) c (m : PyM S A) h :
keeps f m -> (forall e, keeps f (h e)) -> keeps f (try_except c m h).
Proof.
intros Hm Hh s. unfold try_except. specialize (Hm s).
destruct (m s) as [[a|e] s']; simpl in *; [done|].
destruct (c e); simpl; [by rewrite Hh | done].
Qed.

Lemma keeps_when {T} (f : S -> T) b (m : PyM S unit) :
keeps f m -> keeps f (when b m).
Proof. destruct b; [done | apply keeps_ret]. Qed.

Lemma keeps_if {A T} (f : S -> T) (b : bool) (m1 m2 : PyM S A) :
keeps f m1 -> keeps f m2 -> keeps f (if b then m1 else m2).
Proof. by destruct b. Qed.

Lemma keeps_modify {T} (f : S -> T) g :
(forall s, f (g s) = f s) -> keeps f (modify g).
Proof. intros H s. apply H. Qed.

Lemma keeps_preserves {A T} (f : S -> T) (P : S -> Prop) (m : PyM S A) :
(forall s s', f s' = f s -> P s -> P s') -> keeps f m -> preserves P m.
Proof. intros HP Hm s Hs. by apply (HP s); [apply Hm|]. Qed.

(** A computation whose every run, raising or not, relates the state
    before to the state after by [R]. *)
Definition mono {A} (R : S -> S -> Prop) (m : PyM S A) : Prop :=
  forall s, R s (snd (m s)).

Section Mono.
Context (R : S -> S -> Prop) `{!Reflexive R} `{!Transitive R}.

Lemma mono_ret {A} (a : A) : mono R (ret a).
Proof. intros s. simpl. reflexivity. Qed.

Lemma mono_raise {A} e : mono R (@raise S A e).
Proof. intros s. simpl. reflexivity. Qed.

Lemma mono_gets {A} (g : S -> A) : mono R (gets g).
Proof. intros s. simpl. reflexivity. Qed.

Lemma mono_keeps {A T} (f : S -> T) (m : PyM S A) :
  (forall s s', f s' = f s -> R s s') -> keeps f m -> mono R m.
Proof. intros HR Hm s. apply HR, Hm. Qed.

Lemma mono_bind {A B} (m : PyM S A) (k : A -> PyM S B) :
  mono R m -> (forall a, mono R (k a)) -> mono R (bind m k).
Proof.
  intros Hm Hk s. unfold bind. specialize (Hm s).
  destruct (m s) as [[a|e] s'] eqn:?; simpl in *; [|done].
  etrans; [exact Hm | apply Hk].
Qed.

Lemma mono_try {A} c (m : PyM S A) h :
  mono R m -> (forall e, mono R (h e)) -> mono R (try_except c m h).
Proof.
  intros Hm Hh s. unfold try_except. specialize (Hm s).
  destruct (m s) as [[a|e] s']; simpl in *; [done|].
  destruct (c e); simpl; [etrans; [exact Hm | apply Hh] | done].
Qed.

Lemma mono_if {A} (b : bool) (m1 m2 : PyM S A) :
  mono R m1 -> mono R m2 -> mono R (if b then m1 else m2).
Proof. by destruct b. Qed.

Lemma mono_when b (m : PyM S unit) : mono R m -> mono R (when b m).
Proof. destruct b; [done | apply mono_ret]. Qed.
End Mono.

(** A computation that never raises [SystemExit]: only [sys.exit] does. *)
Definition no_exit {A} (m : PyM S A) : Prop :=
  forall s, match fst (m s) with Raise (SystemExit _) => False | _ => True end.

Lemma no_exit_ret {A} (a : A) : no_exit (ret a).
Proof. by intros s. Qed.

Lemma no_exit_raise {A} e : (forall c, e <> SystemExit c) -> no_exit (@raise S A e).
Proof. intros He s. simpl. destruct e; try done. by apply (He code). Qed.

Lemma no_exit_gets {A} (g : S -> A) : no_exit (gets g).
Proof. by intros s. Qed.

Lemma no_exit_modify f : no_exit (modify f).
Proof. by intros s. Qed.

Lemma no_exit_bind {A B} (m : PyM S A) (k : A -> PyM S B) :
  no_exit m -> (forall a, no_exit (k a)) -> no_exit (bind m k).
Proof.
  intros Hm Hk s. unfold bind. specialize (Hm s).
  destruct (m s) as [[a|e] s']; simpl in *; [apply Hk | done].
Qed.

Lemma no_exit_try {A} c (m : PyM S A) h :
  no_exit m -> (forall e, no_exit (h e)) -> no_exit (try_except c m h).
Proof.
  intros Hm Hh s. unfold try_except. specialize (Hm s).
  destruct (m s) as [[a|e] s']; simpl in *; [done|].
  destruct (c e); [apply Hh | done].
Qed.

Lemma no_exit_if {A} (b : bool) (m1 m2 : PyM S A) :
  no_exit m1 -> no_exit m2 -> no_exit (if b then m1 else m2).
Proof. by destruct b. Qed.

Lemma no_exit_when b (m : PyM S unit) : no_exit m -> no_exit (when b m).
Proof. destruct b; [done | apply no_exit_ret]. Qed.

End MonadLemmas.

Create HintDb pyg.
Create Rewrite HintDb pyg_rw.
#[export] Hint Resolve preserves_ret preserves_raise preserves_gets
  preserves_bind preserves_try preserves_when preserves_if
  keeps_ret keeps_raise keeps_gets keeps_bind keeps_try keeps_when keeps_if
  mono_ret mono_raise mono_gets mono_bind mono_try mono_if mono_when
  no_exit_ret no_exit_gets no_exit_modify no_exit_bind no_exit_try no_exit_if
  no_exit_when : pyg.
#[export] Hint Extern 2 (no_exit (raise _)) => (apply no_exit_raise; discriminate) : pyg.
#[export] Hint Extern 2 (keeps _ (modify _)) => (apply keeps_modify; reflexivity) : pyg.

(** ** Rationals: Python's [>] and [<] on floats *)

Definition Qltb (a b : Q) : bool := negb (Qle_bool b a).

Lemma Qltb_spec a b : Qltb a b = true <-> (a < b)%Q.
Proof.
  unfold Qltb. rewrite negb_true_iff. split.
  - intros H. apply Qnot_le_lt. intros Hle. apply Qle_bool_iff in Hle. congruence.
  - intros H. destruct (Qle_bool b a) eqn:E; [|done].
    apply Qle_bool_iff in E. exfalso. by apply (Qlt_not_le a b).
Qed.

Lemma Qltb_false a b : Qltb a b = false <-> (b <= a)%Q.
Proof.
  unfold Qltb. rewrite negb_false_iff. apply Qle_bool_iff.
Qed.

(** ** Tactics *)

(** Run a monadic program symbolically: unfold the combinators and
    reduce. *)
Ltac py_unfold :=
  unfold bind, ret, raise, gets, modify, try_except, when, outcome, final in *;
  cbn -[Qle_bool] in *.

(** Case on the Python tests left in the goal after [py_unfold]. *)
Ltac py_case :=
  repeat match goal with
  | |- context [if ?b then _ else _] =>
      lazymatch b with
      | context [if _ then _ else _] => fail
      | _ => destruct b eqn:?
      end
  end.

Ltac py_run := py_unfold; py_case; simplify_eq/=; try done.

(** A leaf operation keeps a projection: unfold it and split its cases. *)
Ltac solve_keeps op :=
  intros ?s; unfold op; py_unfold; repeat (case_match; simpl in *); try done.

(** The same for [no_exit]. *)
Ltac solve_no_exit op :=
  intros ?s; unfold op; py_unfold; repeat (case_match; simpl in *); simplify_eq; try done.
