(* ===== verification/PyStr.v ===== *)
(** * Python 2 string builtins used to build the log line

    [str.replace], [repr] of a byte string and of an int, and [str] of a
    dict, written from the CPython 2 algorithms (stringobject.c:
    [string_repr], [replace]; dictobject.c: [dict_repr]).  They belong to
    the language, not to the program, and the map does not list them.
    The lemmas say which characters each builtin can produce; [Logger]
    uses them to show that a log line never contains a newline. *)

From S2P Require Import Prelude.
From Stdlib Require Export Ascii.
From Stdlib Require Import DecimalString.

Local Open Scope string_scope.

(** ** Characters *)

Fixpoint all_chars (p : ascii -> bool) (s : string) : bool :=
  match s with
  | EmptyString => true
  | String c s' => p c && all_chars p s'
  end.

Definition printable (c : ascii) : bool :=
  (32 <=? Ascii.nat_of_ascii c)%nat && (Ascii.nat_of_ascii c <=? 126)%nat.

Fixpoint count_char (c : ascii) (s : string) : nat :=
  match s with
  | EmptyString => 0
  | String d s' => (if ascii_dec c d then 1 else 0) + count_char c s'
  end.

Definition nl : ascii := Ascii.ascii_of_nat 10.
Definition dquote : ascii := Ascii.ascii_of_nat 34.
Definition squote : ascii := Ascii.ascii_of_nat 39.

Fixpoint str_drop (n : nat) (s : string) : string :=
  match n, s with
  | O, _ => s
  | S n', String _ s' => str_drop n' s'
  | S _, EmptyString => EmptyString
  end.

Fixpoint str_remove (c : ascii) (s : string) : string :=
  match s with
  | EmptyString => EmptyString
  | String d s' => if ascii_dec c d then str_remove c s' else String d (str_remove c s')
  end.

(** ** [str.replace(old, new)] *)

(** The scan of CPython's [replace] for a non-empty [old]: left to right,
    non-overlapping.  One unit of fuel per character of [s] is enough
    ([replace_fuel_enough]). *)
Fixpoint replace_fuel (fuel : nat) (old new s : string) : string :=
  match fuel, s with
  | O, _ => s
  | S _, EmptyString => EmptyString
  | S f, String c s' =>
      if String.prefix old s
      then new +:+ replace_fuel f old new (str_drop (String.length old) s)
      else String c (replace_fuel f old new s')
  end.

(** An empty [old] inserts [new] before every character and at the end:
    replacing the empty string by [-] in [ab] gives [-a-b-]. *)
Fixpoint interleave (new s : string) : string :=
  match s with
  | EmptyString => new
  | String c s' => new +:+ String c (interleave new s')
  end.

Definition py_replace (old new s : string) : string :=
  match old with
  | EmptyString => interleave new s
  | _ => replace_fuel (String.length s) old new s
  end.

(** ** [repr] of a byte string (Python 2) *)

Definition hex_digit (n : nat) : ascii :=
  match String.get n "0123456789abcdef" with Some c => c | None => "0"%char end.

(** One character, escaped with the chosen quote. *)
Definition repr_char (quote c : ascii) : string :=
  let n := Ascii.nat_of_ascii c in
  if ascii_dec c quote then String "\" (String c EmptyString)
  else if ascii_dec c "\" then "\\"
  else if (n =? 9)%nat then "\t"
  else if (n =? 10)%nat then "\n"
  else if (n =? 13)%nat then "\r"
  else if printable c then String c EmptyString
  else String "\" (String "x" (String (hex_digit (n / 16)) (String (hex_digit (n mod 16)) EmptyString))).

Fixpoint repr_body (quote : ascii) (s : string) : string :=
  match s with
  | EmptyString => EmptyString
  | String c s' => repr_char quote c +:+ repr_body quote s'
  end.

Fixpoint has_char (c : ascii) (s : string) : bool :=
  match s with
  | EmptyString => false
  | String d s' => if ascii_dec c d then true else has_char c s'
  end.

(** Single quotes, unless the string has a single quote and no double
    quote. *)
Definition py_repr_str (s : string) : string :=
  let quote := if has_char squote s && negb (has_char dquote s) then dquote else squote in
  String quote (repr_body quote s +:+ String quote EmptyString).

Definition py_str_int (z : Z) : string := NilZero.string_of_int (Z.to_int z).

(** ** [str] of a dict, in the order of its items *)

Inductive pyval : Type :=
  | VStr (s : string)
  | VInt (z : Z).

#[export] Instance pyval_eq_dec : EqDecision pyval.
Proof. solve_decision. Defined.

Definition py_repr (v : pyval) : string :=
  match v with
  | VStr s => py_repr_str s
  | VInt z => py_str_int z
  end.

(** [sep.join(xs)] *)
Fixpoint py_join (sep : string) (xs : list string) : string :=
  match xs with
  | [] => EmptyString
  | [x] => x
  | x :: rest => x +:+ sep +:+ py_join sep rest
  end.

Definition item_repr (kv : string * pyval) : string :=
  py_repr_str kv.1 +:+ ": " +:+ py_repr kv.2.

Definition py_str_dict (items : list (string * pyval)) : string :=
  "{" +:+ py_join ", " (map item_repr items) +:+ "}".

(** ** Lemmas *)

Lemma all_chars_app p s1 s2 :
  all_chars p (s1 +:+ s2) = all_chars p s1 && all_chars p s2.
Proof. induction s1 as [|c s1 IH]; simpl; [done|]. by rewrite IH, andb_assoc. Qed.

Lemma count_char_app c s1 s2 :
  count_char c (s1 +:+ s2) = (count_char c s1 + count_char c s2)%nat.
Proof. induction s1 as [|d s1 IH]; simpl; [done|]. rewrite IH. lia. Qed.

Lemma count_char_all_chars c p s :
  p c = false -> all_chars p s = true -> count_char c s = 0%nat.
Proof.
  intros Hc. induction s as [|d s IH]; simpl; [done|].
  intros [Hd Hs]%andb_prop. rewrite IH by done.
  destruct (ascii_dec c d); [subst; congruence | done].
Qed.

Lemma nl_not_printable : printable nl = false.
Proof. reflexivity. Qed.

Lemma str_remove_all_chars p c s :
  all_chars p s = true -> all_chars p (str_remove c s) = true.
Proof.
  induction s as [|d s IH]; simpl; [done|].
  intros [Hd Hs]%andb_prop. destruct (ascii_dec c d); simpl; [auto|].
  by rewrite Hd, IH.
Qed.

Lemma str_remove_no_char c s : has_char c (str_remove c s) = false.
Proof.
  induction s as [|d s IH]; simpl; [done|].
  destruct (ascii_dec c d); simpl; [done|]. by destruct (ascii_dec c d).
Qed.

Lemma str_drop_length n s : String.length (str_drop n s) = (String.length s - n)%nat.
Proof. revert s; induction n; intros [|c s]; simpl; auto; lia. Qed.

(** The fuel of [replace_fuel] is enough when it is at least the length of
    the string: the scan always consumes a character. *)
Lemma replace_fuel_irrel old new n s f1 f2 :
  old <> EmptyString -> (String.length s <= n)%nat ->
  (String.length s <= f1)%nat -> (String.length s <= f2)%nat ->
  replace_fuel f1 old new s = replace_fuel f2 old new s.
Proof.
  intros Hold. revert s f1 f2. induction n as [|n IH];
    intros [|c s] [|f1] [|f2] Hn H1 H2; cbn -[String.prefix] in *; try lia; try done.
  destruct (String.prefix old (String c s)); f_equal; apply IH; try lia;
    destruct old as [|a old]; try done; cbn [String.length str_drop];
    rewrite str_drop_length; lia.
Qed.

Lemma replace_fuel_enough old new s f :
  old <> EmptyString -> (String.length s <= f)%nat ->
  replace_fuel f old new s = replace_fuel (String.length s) old new s.
Proof. intros. by apply (replace_fuel_irrel _ _ (String.length s)). Qed.

Lemma prefix_empty s : String.prefix EmptyString s = true.
Proof. by destruct s. Qed.

(** A one-character pattern replaced by the empty string removes that
    character: the reference [str_remove] and CPython's scan agree. *)
Lemma replace_fuel_char_remove c s f :
  (String.length s <= f)%nat ->
  replace_fuel f (String c EmptyString) EmptyString s = str_remove c s.
Proof.
  revert f. induction s as [|d s IH]; intros [|f] Hf; simpl in *; try lia; try done.
  destruct (ascii_dec c d) as [->|Hne]; simpl.
  - rewrite prefix_empty. apply IH. lia.
  - f_equal. apply IH. lia.
Qed.

Lemma py_replace_char_remove c s :
  py_replace (String c EmptyString) EmptyString s = str_remove c s.
Proof. apply replace_fuel_char_remove. lia. Qed.

Lemma hex_digit_printable n : printable (hex_digit n) = true.
Proof.
  unfold hex_digit. do 16 (destruct n as [|n]; [reflexivity|]).
  by destruct n.
Qed.

Lemma repr_char_printable quote c :
  printable quote = true -> all_chars printable (repr_char quote c) = true.
Proof.
  intros Hq. unfold repr_char.
  destruct (ascii_dec c quote) as [->|]; [by simpl; rewrite Hq|].
  repeat match goal with
  | |- context [if ?b then _ else _] => destruct b eqn:?
  end; simpl; rewrite ?hex_digit_printable; try done.
  match goal with H : printable c = true |- _ => by rewrite H end.
Qed.

Lemma repr_body_printable q s :
  printable q = true -> all_chars printable (repr_body q s) = true.
Proof.
  intros Hq. induction s as [|c s IH]; simpl; [done|].
  by rewrite all_chars_app, IH, repr_char_printable.
Qed.

Lemma py_repr_str_printable s : all_chars printable (py_repr_str s) = true.
Proof.
  unfold py_repr_str.
  assert (Hq : forall q, printable q = true ->
    all_chars printable (String q (repr_body q s +:+ String q EmptyString)) = true).
  { intros q Hq. simpl. by rewrite Hq, all_chars_app, repr_body_printable; simpl; rewrite ?Hq. }
  apply Hq. by case_match.
Qed.

Lemma string_of_uint_printable u :
  all_chars printable (NilEmpty.string_of_uint u) = true.
Proof. induction u; simpl; auto. Qed.

Lemma py_str_int_printable z : all_chars printable (py_str_int z) = true.
Proof.
  unfold py_str_int, NilZero.string_of_int, NilZero.string_of_uint.
  destruct (Z.to_int z) as [u|u]; simpl;
    destruct u; simpl; rewrite ?string_of_uint_printable; done.
Qed.

Lemma py_repr_printable v : all_chars printable (py_repr v) = true.
Proof. destruct v; [apply py_repr_str_printable | apply py_str_int_printable]. Qed.

#[export] Hint Resolve py_repr_str_printable py_str_int_printable py_repr_printable
  str_remove_all_chars : pyg.
#[export] Hint Rewrite all_chars_app count_char_app py_replace_char_remove : pyg_rw.

Lemma py_join_all_chars p sep xs :
  all_chars p sep = true -> Forall (fun x => all_chars p x = true) xs ->
  all_chars p (py_join sep xs) = true.
Proof.
  intros Hsep. induction 1 as [|x xs Hx Hxs IH]; [done|].
  destruct xs as [|y xs]; [done|].
  change (py_join sep (x :: y :: xs)) with (x +:+ sep +:+ py_join sep (y :: xs)).
  by rewrite !all_chars_app, Hx, Hsep, IH.
Qed.

(** [str] of any dict is printable: keys and values are escaped by
    [repr], ints are digits. *)
Lemma py_str_dict_printable items : all_chars printable (py_str_dict items) = true.
Proof.
  unfold py_str_dict.
  rewrite !all_chars_app, (py_join_all_chars printable ", "); [done|done|].
  apply Forall_forall. intros x Hx.
  apply list_elem_of_In, in_map_iff in Hx as [kv [<- _]].
  unfold item_repr. by rewrite !all_chars_app, py_repr_str_printable, py_repr_printable.
Qed.

(** ** [float(s)] on decimal strings *)

(** CPython's [float] strips ASCII white space, then reads an optional
    sign, digits with an optional fraction (at least one digit in all) and
    an optional exponent; anything else is a [ValueError] ([None]).  The
    special spellings [inf], [infinity] and [nan] have no rational value:
    the model rejects them. *)

Definition is_space (c : ascii) : bool :=
  let n := Ascii.nat_of_ascii c in
  (n =? 32)%nat || (n =? 9)%nat || (n =? 10)%nat || (n =? 11)%nat || (n =? 12)%nat || (n =? 13)%nat.

Fixpoint lstrip (s : string) : string :=
  match s with
  | String c s' => if is_space c then lstrip s' else s
  | EmptyString => EmptyString
  end.

Fixpoint str_rev (s : string) : string :=
  match s with
  | EmptyString => EmptyString
  | String c s' => str_rev s' +:+ String c EmptyString
  end.

Definition py_strip (s : string) : string := str_rev (lstrip (str_rev (lstrip s))).

Definition digit_val (c : ascii) : option Z :=
  let n := Ascii.nat_of_ascii c in
  if (48 <=? n)%nat && (n <=? 57)%nat then Some (Z.of_nat n - 48)%Z else None.

(** The longest prefix of digits: its value (after [acc]), its length and
    the rest of the string. *)
Fixpoint take_digits (s : string) (acc : Z) (cnt : nat) : Z * nat * string :=
  match s with
  | String c s' =>
      match digit_val c with
      | Some d => take_digits s' (acc * 10 + d)%Z (S cnt)
      | None => (acc, cnt, s)
      end
  | EmptyString => (acc, cnt, EmptyString)
  end.

Definition parse_sign (s : string) : Z * string :=
  match s with
  | String c s' =>
      if ascii_dec c "-" then (-1, s')%Z
      else if ascii_dec c "+" then (1, s')%Z
      else (1, s)%Z
  | EmptyString => (1%Z, EmptyString)
  end.

Definition parse_exponent (s : string) : option (Z * string) :=
  match s with
  | String c s' =>
      if Ascii.eqb c "e" || Ascii.eqb c "E" then
        let '(sg, s1) := parse_sign s' in
        let '(v, n, s2) := take_digits s1 0 0 in
        if (n =? 0)%nat then None else Some ((sg * v)%Z, s2)
      else Some (0%Z, s)
  | EmptyString => Some (0%Z, EmptyString)
  end.

Definition py_float (s : string) : option Q :=
  let '(sg, s1) := parse_sign (py_strip s) in
  let '(ip, ni, s2) := take_digits s1 0 0 in
  let '(fp, nf, s3) :=
    match s2 with
    | String c s' => if ascii_dec c "." then take_digits s' 0 0 else (0%Z, 0%nat, s2)
    | EmptyString => (0%Z, 0%nat, EmptyString)
    end in
  if (ni + nf =? 0)%nat then None else
  match parse_exponent s3 with
  | Some (ex, EmptyString) =>
      Some (inject_Z (sg * (ip * 10 ^ Z.of_nat nf + fp)) / inject_Z (10 ^ Z.of_nat nf)
            * Qpower (inject_Z 10) ex)%Q
  | _ => None
  end.

(** ** ["%.2f" % q] *)

(** Two decimals, the last rounded half away from zero (CPython rounds
    the binary double to nearest; on the exact rationals of the model the
    two agree except at exact ties). *)
Definition py_fmt_2f (q : Q) : string :=
  let n := Qnum q in
  let d := Zpos (Qden q) in
  let r := ((200 * Z.abs n + d) / (2 * d))%Z in
  let ip := (r / 100)%Z in
  let fp := (r mod 100)%Z in
  (if (n <? 0)%Z && (0 <? r)%Z then "-" else EmptyString) +:+ py_str_int ip +:+ "." +:+
  (if (fp <? 10)%Z then "0" else EmptyString) +:+ py_str_int fp.

Lemma has_char_str_remove c d s :
  has_char c s = false -> has_char c (str_remove d s) = false.
Proof.
  induction s as [|x s IH]; simpl; [done|].
  destruct (ascii_dec c x); [done|]. intros H.
  destruct (ascii_dec d x); simpl; [auto|]. destruct (ascii_dec c x); [done | auto].
Qed.

(** stdpp makes [String.append] opaque to [simpl]: the cons case is closed
    by conversion. *)
Lemma str_app_assoc (a b c : string) : a +:+ (b +:+ c) = (a +:+ b) +:+ c.
Proof. induction a as [|x a IH]; [done|]. exact (f_equal (String x) IH). Qed.

Lemma str_app_nil_r (a : string) : a +:+ EmptyString = a.
Proof. induction a as [|x a IH]; [done|]. exact (f_equal (String x) IH). Qed.

(** ** [str.replace] on strings built from known pieces *)

Lemma str_app_cons c a b : String c a +:+ b = String c (a +:+ b).
Proof. reflexivity. Qed.

Lemma str_length_app a b : String.length (a +:+ b) = (String.length a + String.length b)%nat.
Proof. induction a as [|c a IH]; [done|]. rewrite str_app_cons. simpl. by rewrite IH. Qed.

Lemma prefix_app a b : String.prefix a (a +:+ b) = true.
Proof.
  induction a as [|c a IH]; [apply prefix_empty|].
  rewrite str_app_cons. simpl. by destruct (ascii_dec c c).
Qed.

Lemma str_drop_app a b : str_drop (String.length a) (a +:+ b) = b.
Proof. induction a as [|c a IH]; [done|]. by rewrite str_app_cons. Qed.

Lemma prefix_head_ne c o x s : c <> x -> String.prefix (String c o) (String x s) = false.
Proof. intros Hne. simpl. by destruct (ascii_dec c x). Qed.

Lemma replace_fuel_skip c o new a b f :
  has_char c a = false -> (String.length (a +:+ b) <= f)%nat ->
  replace_fuel f (String c o) new (a +:+ b) =
    a +:+ replace_fuel (f - String.length a) (String c o) new b.
Proof.
  revert f. induction a as [|x a IH]; intros f Ha Hf; [by rewrite Nat.sub_0_r|].
  simpl in Ha. destruct (ascii_dec c x) as [|Hne]; [done|].
  rewrite str_app_cons in *. destruct f as [|f]; [simpl in Hf; lia|].
  cbn [replace_fuel]. rewrite prefix_head_ne by done.
  rewrite str_app_cons, IH by (done || (simpl in Hf; lia)). done.
Qed.

(** Characters that cannot start [old] pass through [str.replace]. *)
Lemma py_replace_skip c o new a b :
  has_char c a = false ->
  py_replace (String c o) new (a +:+ b) = a +:+ py_replace (String c o) new b.
Proof.
  intros Ha. unfold py_replace. rewrite replace_fuel_skip by (done || lia).
  f_equal. apply replace_fuel_enough; [done|]. rewrite str_length_app. lia.
Qed.

Lemma py_replace_none c o new s :
  has_char c s = false -> py_replace (String c o) new s = s.
Proof.
  intros Hs. rewrite <- (str_app_nil_r s) at 1. rewrite py_replace_skip by done.
  apply str_app_nil_r.
Qed.

(** An occurrence of [old] at the front is replaced. *)

(** An occurrence of [old] at the front is replaced. *)
Lemma py_replace_hit c o new b :
  py_replace (String c o) new (String c o +:+ b) = new +:+ py_replace (String c o) new b.
Proof.
  unfold py_replace. rewrite str_app_cons. cbn [String.length replace_fuel].
  rewrite <- str_app_cons, prefix_app.
  change (str_drop (S (String.length o)) (String c o +:+ b)) with
    (str_drop (String.length (String c o)) (String c o +:+ b)).
  rewrite str_drop_app. f_equal.
  apply replace_fuel_enough; [done|]. rewrite str_length_app. simpl. lia.
Qed.

(** ** [float()] of a decimal numeral *)

Definition digit_char (d : nat) : ascii := Ascii.ascii_of_nat (48 + d).

Fixpoint digits_str (ds : list nat) : string :=
  match ds with
  | [] => EmptyString
  | d :: ds' => String (digit_char d) (digits_str ds')
  end.

(** The value of a digit sequence after [acc], as [take_digits] reads it. *)
Fixpoint digits_acc (ds : list nat) (acc : Z) : Z :=
  match ds with
  | [] => acc
  | d :: ds' => digits_acc ds' (acc * 10 + Z.of_nat d)%Z
  end.

Definition digits_ok (ds : list nat) : bool := forallb (fun d => d <? 10)%nat ds.

Definition digit_head (s : string) : bool :=
  match s with
  | String c _ => match digit_val c with Some _ => true | None => false end
  | EmptyString => false
  end.

(** The number [I.F] written with the digits [I] and [F]. *)
Definition decimal_value (I F : list nat) : Q :=
  (inject_Z (digits_acc I 0 * 10 ^ Z.of_nat (length F) + digits_acc F 0) /
   inject_Z (10 ^ Z.of_nat (length F)))%Q.

Lemma digit_char_facts d :
  (d < 10)%nat ->
  digit_val (digit_char d) = Some (Z.of_nat d) /\ is_space (digit_char d) = false /\
  digit_char d <> "-"%char /\ digit_char d <> "+"%char.
Proof.
  intros H. do 10 (destruct d as [|d]; [split_and!; vm_compute; (reflexivity || discriminate)|]).
  lia.
Qed.

Lemma digits_str_app a b : digits_str (a ++ b) = digits_str a +:+ digits_str b.
Proof. induction a as [|d a IH]; [done|]. cbn [digits_str app]. by rewrite IH. Qed.

Lemma digits_ok_cons d ds : digits_ok (d :: ds) = true -> (d < 10)%nat /\ digits_ok ds = true.
Proof. unfold digits_ok. simpl. intros [H1 H2]%andb_prop. split; [by apply Nat.ltb_lt | done]. Qed.

Lemma digits_ok_rev ds : digits_ok ds = true -> digits_ok (rev ds) = true.
Proof.
  unfold digits_ok. rewrite !forallb_forall. intros H x Hx. apply H.
  by apply in_rev.
Qed.

Lemma take_digits_digits ds rest acc cnt :
  digits_ok ds = true -> digit_head rest = false ->
  take_digits (digits_str ds +:+ rest) acc cnt = (digits_acc ds acc, (cnt + length ds)%nat, rest).
Proof.
  revert acc cnt. induction ds as [|d ds IH]; intros acc cnt Hok Hr.
  - change (digits_str [] +:+ rest) with rest. cbn [digits_acc length]. rewrite Nat.add_0_r.
    destruct rest as [|c r]; [done|]. unfold digit_head in Hr. cbn [take_digits].
    destruct (digit_val c); [discriminate | reflexivity].
  - apply digits_ok_cons in Hok as [Hd Hok]. destruct (digit_char_facts d Hd) as (Hv & _).
    cbn [digits_str]. rewrite str_app_cons. cbn [take_digits]. rewrite Hv, IH by done.
    cbn [digits_acc length]. by rewrite Nat.add_succ_r.
Qed.

Lemma lstrip_digits ds rest :
  ds <> [] -> digits_ok ds = true -> lstrip (digits_str ds +:+ rest) = digits_str ds +:+ rest.
Proof.
  destruct ds as [|d ds]; [done|]. intros _ Hok. apply digits_ok_cons in Hok as [Hd _].
  destruct (digit_char_facts d Hd) as (_ & Hs & _). cbn [digits_str].
  rewrite str_app_cons. cbn [lstrip]. by rewrite Hs.
Qed.

Lemma str_rev_app a b : str_rev (a +:+ b) = str_rev b +:+ str_rev a.
Proof.
  induction a as [|c a IH]; [by rewrite str_app_nil_r|].
  rewrite str_app_cons. simpl. by rewrite IH, str_app_assoc.
Qed.

Lemma str_rev_involutive s : str_rev (str_rev s) = s.
Proof. induction s as [|c s IH]; [done|]. simpl. rewrite str_rev_app, IH. done. Qed.

Lemma str_rev_digits ds : str_rev (digits_str ds) = digits_str (rev ds).
Proof.
  induction ds as [|d ds IH]; [done|]. cbn [digits_str str_rev rev].
  by rewrite IH, digits_str_app.
Qed.

Lemma py_strip_id s :
  lstrip s = s -> lstrip (str_rev s) = str_rev s -> py_strip s = s.
Proof. intros H1 H2. unfold py_strip. by rewrite H1, H2, str_rev_involutive. Qed.

Lemma parse_sign_digits ds rest :
  ds <> [] -> digits_ok ds = true ->
  parse_sign (digits_str ds +:+ rest) = (1%Z, digits_str ds +:+ rest).
Proof.
  destruct ds as [|d ds]; [done|]. intros _ Hok. apply digits_ok_cons in Hok as [Hd _].
  destruct (digit_char_facts d Hd) as (_ & _ & Hm & Hp). cbn [digits_str].
  rewrite str_app_cons. cbn [parse_sign].
  destruct (ascii_dec (digit_char d) "-"); [done|]. by destruct (ascii_dec (digit_char d) "+").
Qed.

Lemma rev_nonempty {A} (l : list A) : l <> [] -> rev l <> [].
Proof. intros Hl Hr. apply Hl. by rewrite <- (rev_involutive l), Hr. Qed.

(** [float('I.F')] is the number [I.F]. *)
Lemma py_float_decimal I F :
  I <> [] -> F <> [] -> digits_ok I = true -> digits_ok F = true ->
  exists q, py_float (digits_str I +:+ String "." (digits_str F)) = Some q /\
    (q == decimal_value I F)%Q.
Proof.
  intros HI HF HoI HoF.
  assert (Hstrip : py_strip (digits_str I +:+ String "." (digits_str F)) =
                   digits_str I +:+ String "." (digits_str F)).
  { apply py_strip_id; [by apply lstrip_digits|].
    rewrite str_rev_app.
    change (str_rev (String "." (digits_str F))) with
      (str_rev (digits_str F) +:+ String "." EmptyString).
    rewrite str_rev_digits, <- str_app_assoc.
    apply lstrip_digits; [by apply rev_nonempty | by apply digits_ok_rev]. }
  unfold py_float. rewrite Hstrip, parse_sign_digits by done.
  rewrite take_digits_digits by done. cbv beta iota zeta.
  destruct (ascii_dec "." "."); [|done].
  rewrite <- (str_app_nil_r (digits_str F)), take_digits_digits by done.
  assert (Hn : (0 + length I + (0 + length F) =? 0)%nat = false) by (destruct I; done).
  rewrite Hn. cbn [parse_exponent]. eexists; split; [reflexivity|].
  unfold decimal_value. rewrite Z.mul_1_l, Nat.add_0_l. apply Qmult_1_r.
Qed.

(** [float('D\n')] is the integer [D]: [float] strips the newline. *)
Lemma py_float_integer_line D :
  D <> [] -> digits_ok D = true ->
  exists q, py_float (digits_str D +:+ String nl EmptyString) = Some q /\
    (q == inject_Z (digits_acc D 0))%Q.
Proof.
  intros HD HoD.
  assert (Hstrip : py_strip (digits_str D +:+ String nl EmptyString) = digits_str D +:+ EmptyString).
  { unfold py_strip. rewrite lstrip_digits, str_rev_app by done.
    change (str_rev (String nl EmptyString) +:+ str_rev (digits_str D)) with
      (String nl (str_rev (digits_str D))).
    cbn [lstrip]. replace (is_space nl) with true by reflexivity.
    rewrite str_rev_digits, <- (str_app_nil_r (digits_str (rev D))), lstrip_digits
      by (by apply rev_nonempty || by apply digits_ok_rev).
    rewrite str_app_nil_r, str_rev_digits, rev_involutive. symmetry. apply str_app_nil_r. }
  unfold py_float. rewrite Hstrip, parse_sign_digits by done.
  rewrite take_digits_digits by done. cbv beta iota zeta.
  assert (Hn : (0 + length D + 0 =? 0)%nat = false) by (destruct D; done).
  rewrite Hn. cbn [parse_exponent]. eexists; split; [reflexivity|].
  change (10 ^ Z.of_nat 0)%Z with 1%Z. rewrite Z.mul_1_r, Z.add_0_r, Z.mul_1_l.
  change (Qpower (inject_Z 10) 0) with 1%Q. field.
Qed.

Lemma has_char_app c a b : has_char c (a +:+ b) = has_char c a || has_char c b.
Proof.
  induction a as [|x a IH]; [done|]. rewrite str_app_cons. simpl.
  destruct (ascii_dec c x); [done | exact IH].
Qed.

(** A character that is not a digit does not occur in a numeral. *)
Lemma has_char_digits c ds :
  digit_val c = None -> digits_ok ds = true -> has_char c (digits_str ds) = false.
Proof.
  intros Hc. induction ds as [|d ds IH]; intros Hok; [done|].
  apply digits_ok_cons in Hok as [Hd Hok]. destruct (digit_char_facts d Hd) as (Hv & _).
  cbn [digits_str has_char]. destruct (ascii_dec c (digit_char d)) as [->|]; [congruence|].
  by apply IH.
Qed.
