(* ===== verification/Hardware.v ===== *)
(** * The world [sensor.py] runs in

    The process state [St]: the three module-level flags of [sensor.py]
    ([is_fan_on], [is_relay2_on], [is_log_save_success]) and the state of
    every device and service the script drives: the Sense HAT frame buffer,
    the two relays ([gpiozero.OutputDevice] on GPIO 17 and 27, both
    [active_high=False]), the fan animation, the photo folder, the S3
    bucket, the DynamoDB table [Greenhouse], the file [log.txt], stdout and
    the clock (seconds).

    The outside world is the record [Env]: what the sensors read, whether
    the camera, S3, DynamoDB and the file system succeed, and whether a
    keyboard interrupt arrives, each as a function of the clock.  Every
    operation below takes it as a section variable, and every theorem of
    the development holds for all environments.

    The operations follow the libraries the script calls (sense_hat,
    gpiozero, picamera, boto3) at the level of their documented behaviour:
    they are the boundary of the program and are not in the map. *)

From S2P Require Import Prelude PyStr.

Local Open Scope string_scope.

(** ** Data *)

Definition color : Type := (Z * Z * Z)%type.
Definition black : color := (0, 0, 0)%Z.

(** A DynamoDB item: attribute name and value, in the order written. *)
Definition ditem : Type := list (string * pyval).

(** [item[k]] of a dict built from a literal: the last binding wins. *)
Definition attr (k : string) (item : ditem) : option pyval :=
  foldl (fun acc kv => if String.eqb k kv.1 then Some kv.2 else acc) None item.

(** [gpiozero.OutputDevice]: its logical value and polarity. *)
Record OutputDevice := mkOutputDevice {
  od_active_high : bool;
  od_value : bool;
}.

(** The level driven on the pin. *)
Definition od_pin (d : OutputDevice) : bool :=
  if od_active_high d then od_value d else negb (od_value d).

Inductive reading : Type :=
  | RHumidity | RPressure | RCompass | RTemperature
  | RTempFromHumidity | RTempFromPressure.

Inductive capture_result : Type :=
  | CapOk (bytes : nat)        (** the file is written, with its size *)
  | CapFail                    (** PiCameraError *)
  | CapInterrupt.              (** Ctrl-C while the camera works *)

Inductive upload_result : Type :=
  | UpOk (chunks : list nat)   (** the progress callback sees these byte counts *)
  | UpClientError (code : string)
  | UpFailed.                  (** S3UploadFailedError, network errors *)

Record Env := mkEnv {
  env_sensor : reading -> nat -> option Q;   (** None: the read raises *)
  env_vcgencmd : nat -> string;              (** line printed by vcgencmd *)
  env_thermal_zone : nat -> string;          (** first line of thermal_zone0/temp *)
  env_capture : nat -> capture_result;
  env_upload : nat -> upload_result;
  env_put_ok : nat -> bool;                  (** DynamoDB accepts put_item *)
  env_fs_ok : nat -> bool;                   (** log.txt can be opened and written *)
  env_utcnow : nat -> string;                (** str(datetime.datetime.utcnow()) *)
  env_interrupt : nat -> bool;               (** Ctrl-C during a sleep started then *)
}.

Record St := mkSt {
  is_fan_on : bool;
  is_relay2_on : Z;
  is_log_save_success : bool;
  fb : list color;
  fan : OutputDevice;
  relay2 : OutputDevice;
  anim_playing : bool;
  files : gmap string nat;
  s3_objects : gmap (string * string) nat;
  table : gmap string ditem;
  text_files : gmap string string;
  stdout : list string;
  clock : nat;
}.

(** Field updates. *)
Definition set_is_fan_on b s := mkSt b (is_relay2_on s) (is_log_save_success s) (fb s) (fan s) (relay2 s) (anim_playing s) (files s) (s3_objects s) (table s) (text_files s) (stdout s) (clock s).
Definition set_is_relay2_on z s := mkSt (is_fan_on s) z (is_log_save_success s) (fb s) (fan s) (relay2 s) (anim_playing s) (files s) (s3_objects s) (table s) (text_files s) (stdout s) (clock s).
Definition set_is_log_save_success b s := mkSt (is_fan_on s) (is_relay2_on s) b (fb s) (fan s) (relay2 s) (anim_playing s) (files s) (s3_objects s) (table s) (text_files s) (stdout s) (clock s).
Definition set_fb f s := mkSt (is_fan_on s) (is_relay2_on s) (is_log_save_success s) f (fan s) (relay2 s) (anim_playing s) (files s) (s3_objects s) (table s) (text_files s) (stdout s) (clock s).
Definition set_fan d s := mkSt (is_fan_on s) (is_relay2_on s) (is_log_save_success s) (fb s) d (relay2 s) (anim_playing s) (files s) (s3_objects s) (table s) (text_files s) (stdout s) (clock s).
Definition set_relay2 d s := mkSt (is_fan_on s) (is_relay2_on s) (is_log_save_success s) (fb s) (fan s) d (anim_playing s) (files s) (s3_objects s) (table s) (text_files s) (stdout s) (clock s).
Definition set_anim b s := mkSt (is_fan_on s) (is_relay2_on s) (is_log_save_success s) (fb s) (fan s) (relay2 s) b (files s) (s3_objects s) (table s) (text_files s) (stdout s) (clock s).
Definition set_files m s := mkSt (is_fan_on s) (is_relay2_on s) (is_log_save_success s) (fb s) (fan s) (relay2 s) (anim_playing s) m (s3_objects s) (table s) (text_files s) (stdout s) (clock s).
Definition set_s3 m s := mkSt (is_fan_on s) (is_relay2_on s) (is_log_save_success s) (fb s) (fan s) (relay2 s) (anim_playing s) (files s) m (table s) (text_files s) (stdout s) (clock s).
Definition set_table m s := mkSt (is_fan_on s) (is_relay2_on s) (is_log_save_success s) (fb s) (fan s) (relay2 s) (anim_playing s) (files s) (s3_objects s) m (text_files s) (stdout s) (clock s).
Definition set_text_files t s := mkSt (is_fan_on s) (is_relay2_on s) (is_log_save_success s) (fb s) (fan s) (relay2 s) (anim_playing s) (files s) (s3_objects s) (table s) t (stdout s) (clock s).
Definition set_stdout o s := mkSt (is_fan_on s) (is_relay2_on s) (is_log_save_success s) (fb s) (fan s) (relay2 s) (anim_playing s) (files s) (s3_objects s) (table s) (text_files s) o (clock s).
Definition set_clock n s := mkSt (is_fan_on s) (is_relay2_on s) (is_log_save_success s) (fb s) (fan s) (relay2 s) (anim_playing s) (files s) (s3_objects s) (table s) (text_files s) (stdout s) n.

(** The state after the module-level statements of lines 43-53 and
    149, 184: relays released, frame buffer cleared, no fan, no relay. *)
Definition initial_state (texts0 : gmap string string) (files0 : gmap string nat) (t0 : nat) : St :=
  mkSt false 0%Z false (replicate 64 black)
    (mkOutputDevice false false) (mkOutputDevice false false) false
    files0 ∅ ∅ texts0 [] t0.

Abbreviation M := (PyM St).

(** ** Operations on devices and services *)

Section Ops.
Context (E : Env).

Definition print (msg : string) : M unit :=
  modify (fun s => set_stdout (stdout s ++ [msg]) s).

(** [time.sleep(n)]: a keyboard interrupt arrives while sleeping. *)
Definition sleep (n : nat) : M unit :=
  fun s => if env_interrupt E (clock s) then (Raise KeyboardInterrupt, s)
           else (Ok tt, set_clock (clock s + n) s).

Definition in_byte (v : Z) : bool := (0 <=? v)%Z && (v <=? 255)%Z.
Definition valid_color (c : color) : bool :=
  let '(r, g, b) := c in in_byte r && in_byte g && in_byte b.

(** [sense.set_pixel(x, y, r, g, b)]: pixel [y*8+x] (rotation 0). *)
Definition set_pixel (x y : Z) (c : color) : M unit :=
  fun s =>
    if negb ((0 <=? x)%Z && (x <=? 7)%Z) then (Raise ValueError, s)
    else if negb ((0 <=? y)%Z && (y <=? 7)%Z) then (Raise ValueError, s)
    else if negb (valid_color c) then (Raise ValueError, s)
    else (Ok tt, set_fb (<[Z.to_nat (y * 8 + x) := c]> (fb s)) s).

(** [sense.set_pixels(pixel_list)]: 64 valid pixels. *)
Definition set_pixels (l : list color) : M unit :=
  fun s =>
    if negb (length l =? 64)%nat then (Raise ValueError, s)
    else if negb (forallb valid_color l) then (Raise ValueError, s)
    else (Ok tt, set_fb l s).

Definition clear : M unit := modify (set_fb (replicate 64 black)).

Definition fan_on : M unit := modify (fun s => set_fan (mkOutputDevice (od_active_high (fan s)) true) s).
Definition fan_off : M unit := modify (fun s => set_fan (mkOutputDevice (od_active_high (fan s)) false) s).
Definition relay2_on : M unit := modify (fun s => set_relay2 (mkOutputDevice (od_active_high (relay2 s)) true) s).
Definition relay2_off : M unit := modify (fun s => set_relay2 (mkOutputDevice (od_active_high (relay2 s)) false) s).

(** A reading of the Sense HAT. *)
Definition sense_get (r : reading) : M Q :=
  fun s => match env_sensor E r (clock s) with
           | Some v => (Ok v, s)
           | None => (Raise SensorError, s)
           end.

Definition time_time : M Z := gets (fun s => Z.of_nat (clock s)).
Definition utcnow_str : M string := gets (fun s => env_utcnow E (clock s)).

(** [os.popen(cmd).readline()] for the two thermal probes. *)
Definition read_vcgencmd : M string := gets (fun s => env_vcgencmd E (clock s)).
Definition read_thermal_zone : M string := gets (fun s => env_thermal_zone E (clock s)).

(** [camera.capture(path)] *)
Definition camera_capture (path : string) : M unit :=
  fun s => match env_capture E (clock s) with
           | CapOk n => (Ok tt, set_files (<[path := n]> (files s)) s)
           | CapFail => (Raise CameraError, s)
           | CapInterrupt => (Raise KeyboardInterrupt, s)
           end.

(** [os.path.getsize(path)] *)
Definition getsize (path : string) : M nat :=
  fun s => match files s !! path with
           | Some n => (Ok n, s)
           | None => (Raise IOError, s)
           end.

(** The progress callback is an object with its own state [C]: it is
    threaded through the chunks of the transfer.  An exception of the
    callback aborts the transfer. *)
Fixpoint run_callbacks {C} (cb : C -> nat -> M C) (c : C) (chunks : list nat) : M C :=
  match chunks with
  | [] => ret c
  | n :: rest => c' <- cb c n ;; run_callbacks cb c' rest
  end.

(** [s3.upload_file(path, bucket, key, Callback=cb)] *)
Definition s3_upload_file {C} (path bucket key : string) (cb : C -> nat -> M C) (c : C) : M C :=
  fun s => match env_upload E (clock s) with
           | UpOk chunks =>
               match run_callbacks cb c chunks s with
               | (Ok c', s') =>
                   match files s' !! path with
                   | Some n => (Ok c', set_s3 (<[(bucket, key) := n]> (s3_objects s')) s')
                   | None => (Raise S3UploadFailedError, s')
                   end
               | r => r
               end
           | UpClientError code => (Raise (ClientError code), s)
           | UpFailed => (Raise S3UploadFailedError, s)
           end.

(** [table.put_item(Item=item)]: the table's key is the attribute
    [log]; a put with an existing key replaces the item. *)
Definition put_item (item : ditem) : M unit :=
  fun s => match attr "log" item with
           | Some (VStr k) =>
               if env_put_ok E (clock s) then (Ok tt, set_table (<[k := item]> (table s)) s)
               else (Raise (ClientError "ProvisionedThroughputExceededException"), s)
           | _ => (Raise (ClientError "ValidationException"), s)
           end.

(** [f = open(path, 'a'); f.write(line); f.close()]: a missing file is
    created, an existing one is extended. *)
Definition file_text (s : St) (path : string) : string :=
  default EmptyString (text_files s !! path).

Definition append_file (path line : string) : M unit :=
  fun s => if env_fs_ok E (clock s)
           then (Ok tt, set_text_files (<[path := file_text s path +:+ line]> (text_files s)) s)
           else (Raise IOError, s).
End Ops.

Lemma print_then {A} msg (m : M A) s :
  (print msg ;; m) s = m (set_stdout (stdout s ++ [msg]) s).
Proof. reflexivity. Qed.

(** ** The frame buffer keeps its 64 pixels *)

Definition pixel (s : St) (x y : nat) : option color := fb s !! (y * 8 + x)%nat.

Definition fb_wf (s : St) : Prop := length (fb s) = 64%nat.

Lemma set_pixel_ok x y c s :
  (0 <= x <= 7)%Z -> (0 <= y <= 7)%Z -> valid_color c = true ->
  set_pixel x y c s = (Ok tt, set_fb (<[Z.to_nat (y * 8 + x) := c]> (fb s)) s).
Proof.
  intros Hx Hy Hc. unfold set_pixel.
  replace ((0 <=? x)%Z && (x <=? 7)%Z) with true by (symmetry; apply andb_true_intro; split; apply Z.leb_le; lia).
  replace ((0 <=? y)%Z && (y <=? 7)%Z) with true by (symmetry; apply andb_true_intro; split; apply Z.leb_le; lia).
  by rewrite Hc.
Qed.

Lemma set_pixel_fb_wf x y c : preserves fb_wf (set_pixel x y c).
Proof.
  intros s Hs. unfold set_pixel. repeat case_match; simpl; try done.
  unfold fb_wf in *; simpl. by rewrite length_insert.
Qed.

Lemma set_pixels_fb_wf l : preserves fb_wf (set_pixels l).
Proof.
  intros s Hs. unfold set_pixels.
  destruct (length l =? 64)%nat eqn:Hl; simpl; [|done].
  case_match; simpl; [done|]. unfold fb_wf; simpl. by apply Nat.eqb_eq.
Qed.

Lemma clear_fb_wf : preserves fb_wf clear.
Proof. by intros s _. Qed.

(** Every other operation leaves the frame buffer alone. *)
Abbreviation keeps_fb := (keeps fb).

Lemma keeps_fb_preserves {A} (m : M A) : keeps_fb m -> preserves fb_wf m.
Proof. apply keeps_preserves. intros s s' H. unfold fb_wf. by rewrite H. Qed.

Lemma run_callbacks_keeps {C T} (f : St -> T) (cb : C -> nat -> M C) c chunks :
  (forall c n, keeps f (cb c n)) -> keeps f (run_callbacks cb c chunks).
Proof.
  intros Hcb. revert c. induction chunks as [|n rest IH]; intros c; simpl;
    auto using keeps_ret, keeps_bind.
Qed.

(** The operations that touch neither the frame buffer nor the fan:
    only these fields are read by the invariants of [Status] and [Fan]. *)
Definition fan_fields (s : St) : bool * OutputDevice * bool :=
  (is_fan_on s, fan s, anim_playing s).

Section Keeps.
Context (E : Env).

Lemma print_keeps {T} (f : St -> T) msg :
  (forall s o, f (set_stdout o s) = f s) -> keeps f (print msg).
Proof. intros H s. apply H. Qed.
Lemma sleep_keeps_fb n : keeps_fb (sleep E n). Proof. solve_keeps sleep. Qed.
Lemma sleep_keeps_fan n : keeps fan_fields (sleep E n). Proof. solve_keeps sleep. Qed.
Lemma sense_get_keeps {T} (f : St -> T) r : keeps f (sense_get E r). Proof. solve_keeps sense_get. Qed.
Lemma camera_capture_keeps_fb p : keeps_fb (camera_capture E p). Proof. solve_keeps camera_capture. Qed.
Lemma camera_capture_keeps_fan p : keeps fan_fields (camera_capture E p). Proof. solve_keeps camera_capture. Qed.
Lemma getsize_keeps {T} (f : St -> T) p : keeps f (getsize p). Proof. solve_keeps getsize. Qed.
Lemma s3_upload_file_keeps_fb {C} p b k (cb : C -> nat -> M C) c :
  (forall c n, keeps_fb (cb c n)) -> keeps_fb (s3_upload_file E p b k cb c).
Proof.
  intros Hcb s. unfold s3_upload_file. destruct (env_upload E (clock s)); [|done|done].
  pose proof (run_callbacks_keeps fb cb c chunks Hcb s) as H.
  destruct (run_callbacks cb c chunks s) as [[c'|e] s']; simpl in *; [|done].
  by case_match.
Qed.
Lemma s3_upload_file_keeps_fan {C} p b k (cb : C -> nat -> M C) c :
  (forall c n, keeps fan_fields (cb c n)) -> keeps fan_fields (s3_upload_file E p b k cb c).
Proof.
  intros Hcb s. unfold s3_upload_file. destruct (env_upload E (clock s)); [|done|done].
  pose proof (run_callbacks_keeps fan_fields cb c chunks Hcb s) as H.
  destruct (run_callbacks cb c chunks s) as [[c'|e] s']; simpl in *; [|done].
  by case_match.
Qed.
Lemma put_item_keeps_fb i : keeps_fb (put_item E i). Proof. solve_keeps put_item. Qed.
Lemma put_item_keeps_fan i : keeps fan_fields (put_item E i). Proof. solve_keeps put_item. Qed.
Lemma append_file_keeps_fb p l : keeps_fb (append_file E p l). Proof. solve_keeps append_file. Qed.
Lemma append_file_keeps_fan p l : keeps fan_fields (append_file E p l). Proof. solve_keeps append_file. Qed.
Lemma relay2_on_keeps_fb : keeps_fb relay2_on. Proof. solve_keeps relay2_on. Qed.
Lemma relay2_on_keeps_fan : keeps fan_fields relay2_on. Proof. solve_keeps relay2_on. Qed.
Lemma relay2_off_keeps_fb : keeps_fb relay2_off. Proof. solve_keeps relay2_off. Qed.
Lemma relay2_off_keeps_fan : keeps fan_fields relay2_off. Proof. solve_keeps relay2_off. Qed.
Lemma set_pixel_keeps_fan x y c : keeps fan_fields (set_pixel x y c). Proof. solve_keeps set_pixel. Qed.
Lemma set_pixels_keeps_fan l : keeps fan_fields (set_pixels l). Proof. solve_keeps set_pixels. Qed.
Lemma clear_keeps_fan : keeps fan_fields clear. Proof. solve_keeps clear. Qed.
Lemma fan_on_keeps_fb : keeps_fb fan_on. Proof. solve_keeps fan_on. Qed.
Lemma fan_off_keeps_fb : keeps_fb fan_off. Proof. solve_keeps fan_off. Qed.
End Keeps.

#[export] Hint Resolve set_pixel_fb_wf set_pixels_fb_wf clear_fb_wf keeps_fb_preserves
  sleep_keeps_fb sleep_keeps_fan sense_get_keeps camera_capture_keeps_fb
  camera_capture_keeps_fan getsize_keeps s3_upload_file_keeps_fb s3_upload_file_keeps_fan
  put_item_keeps_fb put_item_keeps_fan append_file_keeps_fb append_file_keeps_fan
  relay2_on_keeps_fb relay2_on_keeps_fan relay2_off_keeps_fb relay2_off_keeps_fan
  set_pixel_keeps_fan set_pixels_keeps_fan clear_keeps_fan fan_on_keeps_fb fan_off_keeps_fb : pyg.
#[export] Hint Extern 1 (keeps _ (print _)) => (apply print_keeps; reflexivity) : pyg.

(** ** Scenarios, for concrete runs

    Every reading is [v], the probes print 48.3 C and 48.312 C, the camera,
    S3 and DynamoDB answer as given, the disk accepts, an interrupt arrives
    as given, and the clock prints as [t<seconds>].  [calm_env] is the
    world where everything succeeds. *)
Definition scenario_env (v : Q) (cap : capture_result) (up : upload_result)
    (put_ok intr : bool) : Env :=
  mkEnv (fun _ _ => Some v)
    (fun _ => "temp=48.3'C" +:+ String nl EmptyString)
    (fun _ => "48312" +:+ String nl EmptyString)
    (fun _ => cap) (fun _ => up)
    (fun _ => put_ok) (fun _ => true)
    (fun t => "t" +:+ py_str_int (Z.of_nat t))
    (fun _ => intr).

Definition calm_env (v : Q) : Env := scenario_env v (CapOk 1000) (UpOk [1000%nat]) true false.

(** A rendering of floats for the concrete runs. *)
Definition sample_float_str : Q -> string := fun _ => "96.8".

Definition s_init : St := initial_state ∅ ∅ 0.

Lemma s_init_fb_wf : fb_wf s_init.
Proof. reflexivity. Qed.

(** ** What the photo pipeline cannot touch

    The flags, the relays, the animation, the table, the text files and
    the clock: only [sleep], [put_item], [append_file], the relay
    operations and the flag assignments change them. *)
Definition ctl_fields (s : St) :=
  (is_fan_on s, is_relay2_on s, is_log_save_success s, fan s, relay2 s, anim_playing s,
   table s, text_files s, clock s).

Section KeepsCtl.
Context (E : Env).

Lemma print_keeps_ctl msg : keeps ctl_fields (print msg). Proof. by intros s. Qed.
Lemma set_pixel_keeps_ctl x y c : keeps ctl_fields (set_pixel x y c). Proof. solve_keeps set_pixel. Qed.
Lemma set_pixels_keeps_ctl l : keeps ctl_fields (set_pixels l). Proof. solve_keeps set_pixels. Qed.
Lemma clear_keeps_ctl : keeps ctl_fields clear. Proof. solve_keeps clear. Qed.
Lemma camera_capture_keeps_ctl p : keeps ctl_fields (camera_capture E p). Proof. solve_keeps camera_capture. Qed.
Lemma s3_upload_file_keeps_ctl {C} p b k (cb : C -> nat -> M C) c :
  (forall c n, keeps ctl_fields (cb c n)) -> keeps ctl_fields (s3_upload_file E p b k cb c).
Proof.
  intros Hcb s. unfold s3_upload_file. destruct (env_upload E (clock s)); [|done|done].
  pose proof (run_callbacks_keeps ctl_fields cb c chunks Hcb s) as H.
  destruct (run_callbacks cb c chunks s) as [[c'|e] s']; simpl in *; [|done].
  by case_match.
Qed.
End KeepsCtl.

#[export] Hint Resolve print_keeps_ctl set_pixel_keeps_ctl set_pixels_keeps_ctl clear_keeps_ctl
  camera_capture_keeps_ctl s3_upload_file_keeps_ctl : pyg.

(** ** Single steps that succeed *)

Section Runs.
Context (E : Env).

Lemma sense_get_Some r s v :
  env_sensor E r (clock s) = Some v -> sense_get E r s = (Ok v, s).
Proof. intros H. unfold sense_get. by rewrite H. Qed.

Lemma put_item_run item k s :
  attr "log" item = Some (VStr k) -> env_put_ok E (clock s) = true ->
  put_item E item s = (Ok tt, set_table (<[k := item]> (table s)) s).
Proof. intros Hk Hp. unfold put_item. by rewrite Hk, Hp. Qed.

Lemma put_item_fail item k s :
  attr "log" item = Some (VStr k) -> env_put_ok E (clock s) = false ->
  put_item E item s = (Raise (ClientError "ProvisionedThroughputExceededException"), s).
Proof. intros Hk Hp. unfold put_item. by rewrite Hk, Hp. Qed.

Lemma append_file_run p line s :
  env_fs_ok E (clock s) = true ->
  append_file E p line s =
    (Ok tt, set_text_files (<[p := file_text s p +:+ line]> (text_files s)) s).
Proof. intros H. unfold append_file. by rewrite H. Qed.

Lemma sleep_run n s :
  env_interrupt E (clock s) = false -> sleep E n s = (Ok tt, set_clock (clock s + n) s).
Proof. intros H. unfold sleep. by rewrite H. Qed.

Lemma sleep_interrupted n s :
  env_interrupt E (clock s) = true -> sleep E n s = (Raise KeyboardInterrupt, s).
Proof. intros H. unfold sleep. by rewrite H. Qed.
End Runs.

Ltac py_bind H := rewrite (bind_Ok _ _ _ _ _ H); cbv beta.

(** ** No device raises [SystemExit] *)

Section NoExit.
Context (E : Env).
Lemma print_no_exit msg : no_exit (print msg). Proof. by intros s. Qed.
Lemma sleep_no_exit n : no_exit (sleep E n). Proof. solve_no_exit sleep. Qed.
Lemma set_pixel_no_exit x y c : no_exit (set_pixel x y c). Proof. solve_no_exit set_pixel. Qed.
Lemma set_pixels_no_exit l : no_exit (set_pixels l). Proof. solve_no_exit set_pixels. Qed.
Lemma clear_no_exit : no_exit clear. Proof. by intros s. Qed.
Lemma fan_on_no_exit : no_exit fan_on. Proof. by intros s. Qed.
Lemma fan_off_no_exit : no_exit fan_off. Proof. by intros s. Qed.
Lemma relay2_on_no_exit : no_exit relay2_on. Proof. by intros s. Qed.
Lemma relay2_off_no_exit : no_exit relay2_off. Proof. by intros s. Qed.
Lemma sense_get_no_exit r : no_exit (sense_get E r). Proof. solve_no_exit sense_get. Qed.
Lemma camera_capture_no_exit p : no_exit (camera_capture E p). Proof. solve_no_exit camera_capture. Qed.
Lemma getsize_no_exit p : no_exit (getsize p). Proof. solve_no_exit getsize. Qed.
Lemma put_item_no_exit i : no_exit (put_item E i). Proof. solve_no_exit put_item. Qed.
Lemma append_file_no_exit p l : no_exit (append_file E p l). Proof. solve_no_exit append_file. Qed.

Lemma run_callbacks_no_exit {C} (cb : C -> nat -> M C) c chunks :
  (forall c n, no_exit (cb c n)) -> no_exit (run_callbacks cb c chunks).
Proof.
  intros Hcb. revert c. induction chunks as [|n rest IH]; intros c; simpl;
    auto using no_exit_ret, no_exit_bind.
Qed.

Lemma s3_upload_file_no_exit {C} p b k (cb : C -> nat -> M C) c :
  (forall c n, no_exit (cb c n)) -> no_exit (s3_upload_file E p b k cb c).
Proof.
  intros Hcb s. unfold s3_upload_file. destruct (env_upload E (clock s)); simpl; [|done|done].
  pose proof (run_callbacks_no_exit cb c chunks Hcb s) as H.
  destruct (run_callbacks cb c chunks s) as [[c'|e] s']; simpl in *; [|done].
  by destruct (files s' !! p).
Qed.
End NoExit.

#[export] Hint Resolve print_no_exit sleep_no_exit set_pixel_no_exit set_pixels_no_exit
  clear_no_exit fan_on_no_exit fan_off_no_exit relay2_on_no_exit relay2_off_no_exit
  sense_get_no_exit camera_capture_no_exit getsize_no_exit put_item_no_exit
  append_file_no_exit s3_upload_file_no_exit : pyg.
