(* ===== verification/Status.v ===== *)
(** * The status indicator: [display_error_led], [display_success_led]

    Lines 88-94 of [src/sensor.py].  Both write pixel (0,0): red for an
    error, green when the last log was saved.  [display_error_led] assigns
    [is_log_save_success = False] without a [global] statement, so the
    assignment binds a local of the function and the module flag keeps its
    value: after a successful cycle the flag stays [True] across later
    errors, and the next [display_success_led] (from [stop_fan]) paints the
    error pixel green again. *)

From S2P Require Import Prelude PyStr Hardware.

Definition red : color := (255, 0, 0)%Z.
Definition green : color := (0, 240, 0)%Z.

(** Lines 88-90. *)
Definition display_error_led : M unit :=
  let is_log_save_success := false in
  set_pixel 0 0 red.

(** Lines 92-94. *)
Definition display_success_led : M unit :=
  ok <- gets is_log_save_success ;;
  when ok (set_pixel 0 0 green).

Lemma red_valid : valid_color red = true.
Proof. reflexivity. Qed.

Lemma green_valid : valid_color green = true.
Proof. reflexivity. Qed.

Lemma display_error_led_run s :
  display_error_led s = (Ok tt, set_fb (<[0%nat := red]> (fb s)) s).
Proof. reflexivity. Qed.

Lemma display_success_led_run s :
  display_success_led s =
    (Ok tt, if is_log_save_success s then set_fb (<[0%nat := green]> (fb s)) s else s).
Proof. unfold display_success_led. py_unfold. by destruct (is_log_save_success s). Qed.

Lemma display_error_led_fb_wf : preserves fb_wf display_error_led.
Proof. unfold display_error_led. auto with pyg. Qed.

Lemma display_success_led_fb_wf : preserves fb_wf display_success_led.
Proof. unfold display_success_led. eauto with pyg. Qed.

#[export] Hint Resolve display_error_led_fb_wf display_success_led_fb_wf : pyg.
#[export] Hint Rewrite display_error_led_run display_success_led_run : pyg_rw.

(** Reading pixel (0,0) after a write to index 0 of a well-formed frame
    buffer. *)
Lemma pixel00_insert s c :
  fb_wf s -> pixel (set_fb (<[0%nat := c]> (fb s)) s) 0 0 = Some c.
Proof.
  intros Hwf. unfold pixel. simpl. apply list_lookup_insert_eq.
  unfold fb_wf in Hwf. lia.
Qed.

Lemma pixel_insert_ne s c i x y :
  i <> (y * 8 + x)%nat -> pixel (set_fb (<[i := c]> (fb s)) s) x y = pixel s x y.
Proof. intros Hne. unfold pixel. simpl. by apply list_lookup_insert_ne. Qed.
