(* ===== verification/Fan.v ===== *)
(** * The fan controller: [start_fan], [stop_fan], [turn_on_fan_if_hot]

    Lines 149-171 of [src/sensor.py], with the two helper modules the
    script imports and that are not under src/: [temp_utils] (the
    Fahrenheit/Celsius conversions) and [fan_animation] (an LED animation
    that [play] starts and [stop] halts), both modelled from the spec.

    The abstract contract of spec 4.1 is [thermostat_spec], a bang-bang
    controller on the abstract [FanState]; [turn_on_fan_if_hot_refines]
    shows that the code implements it whenever the temperature can be
    read, and [fan_consistent] is the invariant that ties the flag
    [is_fan_on] to the relay on GPIO 17 and to the animation. *)

From S2P Require Import Prelude PyStr Hardware Status.

Local Open Scope string_scope.

(** ** Helper modules (spec-modelled) *)

(** [temp_utils.f_to_c] and [temp_utils.c_to_f] *)
Definition f_to_c (f : Q) : Q := ((f - 32) * 5 / 9)%Q.
Definition c_to_f (c : Q) : Q := (c * 9 / 5 + 32)%Q.

(** [fan_animation.play()] and [fan_animation.stop()] *)
Definition fan_animation_play : M unit := modify (set_anim true).
Definition fan_animation_stop : M unit := modify (set_anim false).

(** Line 52: [turn_on_fan_at_temp = temp_utils.f_to_c(97)] *)
Definition turn_on_fan_at_temp : Q := f_to_c 97.

(** ** The controller *)

(** Lines 150-154 *)
Definition start_fan : M unit :=
  modify (set_is_fan_on true) ;;
  fan_on ;;
  fan_animation_play.

Section Controller.
Context (E : Env) (py_str_float : Q -> string).

(** Lines 156-162 *)
Definition stop_fan : M unit :=
  modify (set_is_fan_on false) ;;
  fan_off ;;
  fan_animation_stop ;;
  sleep E 1 ;;
  display_success_led.

(** Lines 164-171 *)
Definition turn_on_fan_if_hot : M unit :=
  temp <- sense_get E RTemperature ;;
  on <- gets is_fan_on ;;
  if negb on && Qltb turn_on_fan_at_temp temp then
    print ("fan on at " +:+ py_str_float (c_to_f temp) +:+ "F") ;;
    start_fan
  else if on && Qltb temp turn_on_fan_at_temp then
    print ("fan off at " +:+ py_str_float (c_to_f temp) +:+ "F") ;;
    stop_fan
  else ret tt.
End Controller.

(** ** The contract of spec 4.1 *)

Inductive FanState := FanOFF | FanON.

#[export] Instance FanState_eq_dec : EqDecision FanState.
Proof. solve_decision. Defined.

(** [checkThreshold]: a single threshold for both directions. *)
Definition thermostat_spec (th : Q) (st : FanState) (temp : Q) : FanState :=
  match st with
  | FanOFF => if Qltb th temp then FanON else FanOFF
  | FanON => if Qltb temp th then FanOFF else FanON
  end.

Definition fan_state (s : St) : FanState := if is_fan_on s then FanON else FanOFF.

(** The flag, the relay and the animation agree, and the relay is the
    active-low device of line 48. *)
Definition fan_consistent (s : St) : Prop :=
  od_value (fan s) = is_fan_on s /\ anim_playing s = is_fan_on s /\
  od_active_high (fan s) = false.

(** The relay is asserted (its pin driven low) exactly when the fan is on. *)
Lemma fan_consistent_pin s :
  fan_consistent s -> od_pin (fan s) = negb (is_fan_on s).
Proof. intros (Hv & _ & Hh). unfold od_pin. by rewrite Hh, Hv. Qed.

Lemma fan_consistent_fields s s' :
  fan_fields s' = fan_fields s -> fan_consistent s -> fan_consistent s'.
Proof.
  unfold fan_fields, fan_consistent. intros Heq. injection Heq as -> -> ->. done.
Qed.

Lemma keeps_fan_consistent {A} (m : M A) :
  keeps fan_fields m -> preserves fan_consistent m.
Proof. apply keeps_preserves, fan_consistent_fields. Qed.

Lemma display_success_led_keeps_fan : keeps fan_fields display_success_led.
Proof. unfold display_success_led. auto with pyg. Qed.

#[export] Hint Resolve keeps_fan_consistent display_success_led_keeps_fan : pyg.

(** ** Running the controller *)

Lemma start_fan_run s :
  start_fan s =
    (Ok tt, set_anim true (set_fan (mkOutputDevice (od_active_high (fan s)) true)
                                    (set_is_fan_on true s))).
Proof. reflexivity. Qed.

(** [stop_fan] switches everything off before it sleeps; an interrupt
    during the sleep leaves the fan off. *)
Lemma stop_fan_run E s :
  stop_fan E s =
    let s1 := set_anim false (set_fan (mkOutputDevice (od_active_high (fan s)) false)
                                      (set_is_fan_on false s)) in
    if env_interrupt E (clock s) then (Raise KeyboardInterrupt, s1)
    else display_success_led (set_clock (clock s + 1) s1).
Proof.
  unfold stop_fan, bind, modify, sleep, fan_off, fan_animation_stop.
  cbn -[display_success_led]. by destruct (env_interrupt E (clock s)).
Qed.

Lemma start_fan_consistent : preserves fan_consistent start_fan.
Proof. intros s (_ & _ & Hh). rewrite start_fan_run. by hnf; simpl; split_and!. Qed.

Lemma stop_fan_consistent E : preserves fan_consistent (stop_fan E).
Proof.
  intros s (_ & _ & Hh). rewrite stop_fan_run. simpl.
  destruct (env_interrupt E (clock s)); [by hnf; simpl; split_and!|].
  apply keeps_fan_consistent; [apply display_success_led_keeps_fan|]. by hnf; simpl; split_and!.
Qed.

Lemma keeps_fan_flag {A} (m : M A) s :
  keeps fan_fields m -> is_fan_on (snd (m s)) = is_fan_on s.
Proof. intros H. pose proof (H s) as Hs. unfold fan_fields in Hs. by simplify_eq. Qed.

Lemma stop_fan_off E s : is_fan_on (snd (stop_fan E s)) = false.
Proof.
  rewrite stop_fan_run. simpl. destruct (env_interrupt E (clock s)); [done|].
  rewrite keeps_fan_flag; [done | apply display_success_led_keeps_fan].
Qed.

Lemma start_fan_on s : is_fan_on (snd (start_fan s)) = true.
Proof. done. Qed.

Lemma turn_on_fan_if_hot_consistent E fs : preserves fan_consistent (turn_on_fan_if_hot E fs).
Proof.
  unfold turn_on_fan_if_hot.
  eauto 10 using start_fan_consistent, stop_fan_consistent with pyg.
Qed.

(** A failed read of the temperature raises before anything changes. *)
Lemma turn_on_fan_if_hot_read_error E fs s :
  env_sensor E RTemperature (clock s) = None ->
  turn_on_fan_if_hot E fs s = (Raise SensorError, s).
Proof. intros H. unfold turn_on_fan_if_hot, bind, sense_get. by rewrite H. Qed.

Lemma turn_on_fan_if_hot_run E fs s temp :
  env_sensor E RTemperature (clock s) = Some temp ->
  turn_on_fan_if_hot E fs s =
    if negb (is_fan_on s) && Qltb turn_on_fan_at_temp temp then
      (print ("fan on at " +:+ fs (c_to_f temp) +:+ "F") ;; start_fan) s
    else if is_fan_on s && Qltb temp turn_on_fan_at_temp then
      (print ("fan off at " +:+ fs (c_to_f temp) +:+ "F") ;; stop_fan E) s
    else (Ok tt, s).
Proof.
  intros H. unfold turn_on_fan_if_hot, sense_get, gets, bind at 1 2. rewrite H.
  cbn beta iota. by repeat case_match.
Qed.

(** ** The thermostat implements its contract *)

(** C1. Whenever the temperature can be read, [turn_on_fan_if_hot] moves
    the fan to the state the bang-bang contract [thermostat_spec] of spec
    4.1 prescribes for the threshold [turn_on_fan_at_temp] (97 F): on from
    off when strictly hotter, off from on when strictly colder, no change
    otherwise; and it keeps the flag, the relay and the animation in
    agreement.  This holds also when [stop_fan] is interrupted in its
    sleep. *)
Theorem turn_on_fan_if_hot_refines E fs s temp :
  env_sensor E RTemperature (clock s) = Some temp ->
  fan_consistent s ->
  fan_state (final (turn_on_fan_if_hot E fs) s) =
    thermostat_spec turn_on_fan_at_temp (fan_state s) temp /\
  fan_consistent (final (turn_on_fan_if_hot E fs) s).
Proof.
  intros Ht Hc. split; [|by apply turn_on_fan_if_hot_consistent].
  unfold final. rewrite (turn_on_fan_if_hot_run E fs s temp Ht).
  unfold fan_state, thermostat_spec.
  destruct (is_fan_on s) eqn:Hon; cbn [negb andb].
  - destruct (Qltb temp turn_on_fan_at_temp); rewrite ?print_then, ?stop_fan_off; cbn [snd]; rewrite ?Hon; done.
  - destruct (Qltb turn_on_fan_at_temp temp); rewrite ?print_then, ?start_fan_on; cbn [snd]; rewrite ?Hon; done.
Qed.

(** The thermostat returns normally when the temperature can be read and
    no keyboard interrupt arrives during the pause of [stop_fan]. *)
Lemma turn_on_fan_if_hot_returns E fs s temp :
  env_sensor E RTemperature (clock s) = Some temp ->
  env_interrupt E (clock s) = false ->
  outcome (turn_on_fan_if_hot E fs) s = Ok tt.
Proof.
  intros Ht Hi. unfold outcome. rewrite (turn_on_fan_if_hot_run E fs s temp Ht).
  repeat case_match; rewrite ?print_then, ?stop_fan_run; simpl; rewrite ?Hi; try done.
  by rewrite display_success_led_run.
Qed.

(** Witnesses: the controller at 36.5 C in a calm world. *)
Abbreviation show_temp := sample_float_str.

Lemma turn_on_fan_if_hot_refines_witness :
  env_sensor (calm_env (73 # 2)) RTemperature (clock s_init) = Some (73 # 2) /\
  fan_consistent s_init /\
  fan_state (final (turn_on_fan_if_hot (calm_env (73 # 2)) show_temp) s_init) =
    thermostat_spec turn_on_fan_at_temp (fan_state s_init) (73 # 2).
Proof.
  assert (Hr : env_sensor (calm_env (73 # 2)) RTemperature (clock s_init) = Some (73 # 2)) by reflexivity.
  assert (Hc : fan_consistent s_init) by (hnf; simpl; split_and!; reflexivity).
  split; [exact Hr|]. split; [exact Hc|].
  apply (turn_on_fan_if_hot_refines (calm_env (73 # 2)) show_temp s_init (73 # 2) Hr Hc).
Defined.

