(* ===== verification/Joystick.v ===== *)
(** * The joystick handlers: [on_joy_up], [on_joy_down]

    Lines 174-197 of [src/sensor.py].  The Sense HAT library calls
    [sense.stick.direction_up] and [sense.stick.direction_down] with an
    [InputEvent] for every press, hold and release of the stick; only a
    release acts.  Up toggles the fan through [start_fan] / [stop_fan];
    down toggles the second relay (GPIO 27), the integer flag
    [is_relay2_on] and the blue pixel (0,2).

    [dispatch_down] runs the handler on a sequence of events in order, as
    the library's stick thread does; the theorems say that the relay
    changes exactly once per release, whatever the presses and holds. *)

From S2P Require Import Prelude PyStr Hardware Status Fan.

(** ** Events *)

Inductive action := ACTION_PRESSED | ACTION_RELEASED | ACTION_HELD.

#[export] Instance action_eq_dec : EqDecision action.
Proof. solve_decision. Defined.

Inductive direction := DIRECTION_UP | DIRECTION_DOWN | DIRECTION_LEFT
  | DIRECTION_RIGHT | DIRECTION_MIDDLE.

(** [sense_hat.InputEvent] without its timestamp, which no handler reads. *)
Record InputEvent := mkInputEvent {
  ev_direction : direction;
  ev_action : action;
}.

Definition is_released (ev : InputEvent) : bool :=
  bool_decide (ev_action ev = ACTION_RELEASED).

Definition relay_blue : color := (0, 100, 255)%Z.

(** ** Handlers *)

(** Lines 174-179 *)
Definition on_joy_up (E : Env) (event : InputEvent) : M unit :=
  when (is_released event)
    (on <- gets is_fan_on ;;
     if negb on then start_fan else stop_fan E).

(** Lines 185-195 *)
Definition on_joy_down (event : InputEvent) : M unit :=
  when (is_released event)
    (r <- gets is_relay2_on ;;
     if (r =? 0)%Z then
       relay2_on ;;
       modify (set_is_relay2_on 1) ;;
       set_pixel 0 2 relay_blue
     else
       relay2_off ;;
       modify (set_is_relay2_on 0) ;;
       set_pixel 0 2 black).

(** The stick thread delivers the events one after the other. *)
Fixpoint dispatch_down (evs : list InputEvent) : M unit :=
  match evs with
  | [] => ret tt
  | ev :: rest => on_joy_down ev ;; dispatch_down rest
  end.

Fixpoint count_released (evs : list InputEvent) : nat :=
  match evs with
  | [] => 0
  | ev :: rest => (if is_released ev then 1 else 0) + count_released rest
  end.

(** The relay flag is the integer 0 or 1 and agrees with the relay. *)
Definition relay_consistent (s : St) : Prop :=
  (is_relay2_on s = 0%Z /\ od_value (relay2 s) = false) \/
  (is_relay2_on s = 1%Z /\ od_value (relay2 s) = true).

Definition relay_on (s : St) : bool := od_value (relay2 s).

Definition flip (st : FanState) : FanState :=
  match st with FanON => FanOFF | FanOFF => FanON end.

(** ** The handlers, case by case *)

Lemma on_joy_down_ignored ev s :
  is_released ev = false -> on_joy_down ev s = (Ok tt, s).
Proof. intros H. unfold on_joy_down. by rewrite H. Qed.

Lemma on_joy_down_released ev s :
  is_released ev = true ->
  on_joy_down ev s =
    if (is_relay2_on s =? 0)%Z then
      (Ok tt, set_fb (<[16%nat := relay_blue]> (fb s))
                (set_is_relay2_on 1 (set_relay2 (mkOutputDevice (od_active_high (relay2 s)) true) s)))
    else
      (Ok tt, set_fb (<[16%nat := black]> (fb s))
                (set_is_relay2_on 0 (set_relay2 (mkOutputDevice (od_active_high (relay2 s)) false) s))).
Proof. intros H. unfold on_joy_down. rewrite H. py_unfold. by case_match. Qed.

(** One event: a release flips the relay and repaints pixel (0,2), any
    other event changes nothing. *)
Lemma on_joy_down_step ev s :
  relay_consistent s ->
  exists s', on_joy_down ev s = (Ok tt, s') /\ relay_consistent s' /\
    relay_on s' = xorb (relay_on s) (is_released ev) /\
    (is_released ev = true -> fb s' = <[16%nat := if relay_on s' then relay_blue else black]> (fb s)) /\
    fan_fields s' = fan_fields s.
Proof.
  intros Hc. destruct (is_released ev) eqn:Hr.
  - rewrite (on_joy_down_released ev s Hr). unfold relay_consistent, relay_on in *.
    destruct Hc as [[-> Hv] | [-> Hv]]; simpl; (eexists; split; [reflexivity|]);
      simpl; rewrite Hv; split_and!; auto.
  - rewrite (on_joy_down_ignored ev s Hr). eexists; split_and!; try done.
    by rewrite xorb_false_r.
Qed.

(** ** The relay toggles once per release *)

(** C2. Over any sequence of stick events delivered to [on_joy_down], the
    relay ends switched exactly when the number of releases is odd
    (presses and holds never act), the integer flag [is_relay2_on] stays
    0 or 1 in agreement with the relay, and no event raises. *)
Theorem dispatch_down_toggles evs s :
  relay_consistent s ->
  outcome (dispatch_down evs) s = Ok tt /\
  relay_consistent (final (dispatch_down evs) s) /\
  relay_on (final (dispatch_down evs) s) = xorb (relay_on s) (Nat.odd (count_released evs)).
Proof.
  unfold outcome, final. revert s.
  induction evs as [|ev evs IH]; intros s Hc; simpl.
  - by rewrite xorb_false_r.
  - destruct (on_joy_down_step ev s Hc) as (s' & Hrun & Hc' & Hon & _ & _).
    rewrite (bind_Ok _ _ _ _ _ Hrun).
    destruct (IH s' Hc') as (Hok & Hc'' & Hon'). split_and!; [exact Hok|exact Hc''|].
    rewrite Hon', Hon.
    destruct (is_released ev); simpl; [|by rewrite xorb_false_r].
    rewrite Nat.odd_succ, <- Nat.negb_odd.
    by destruct (relay_on s), (Nat.odd (count_released evs)).
Qed.

(** C3. A release on the down button switches the relay and its flag and
    paints pixel (0,2) blue when the relay is now on and black when it is
    off; the fan is untouched. *)
Theorem on_joy_down_release_spec ev s :
  relay_consistent s -> fb_wf s -> is_released ev = true ->
  let s' := final (on_joy_down ev) s in
  relay_on s' = negb (relay_on s) /\ relay_consistent s' /\
  pixel s' 0 2 = Some (if relay_on s' then relay_blue else black) /\
  fan_fields s' = fan_fields s.
Proof.
  intros Hc Hwf Hr. unfold final.
  destruct (on_joy_down_step ev s Hc) as (s' & Hrun & Hc' & Hon & Hfb & Hfan).
  rewrite Hrun. simpl. rewrite Hr, xorb_true_r in Hon. split_and!; try done.
  unfold pixel. rewrite (Hfb Hr). apply list_lookup_insert_eq.
  unfold fb_wf in Hwf. lia.
Qed.

Lemma on_joy_up_run E ev s :
  on_joy_up E ev s =
    if is_released ev then (if is_fan_on s then stop_fan E s else start_fan s)
    else (Ok tt, s).
Proof.
  unfold on_joy_up, when, bind, gets. cbn beta iota.
  by destruct (is_released ev), (is_fan_on s).
Qed.

(** C4. A release on the up button toggles the fan (on when it was off,
    off when it was on) and keeps the flag, the relay and the animation in
    agreement; presses and holds change nothing.  The handler returns
    normally unless an interrupt arrives in the pause of [stop_fan]. *)
Theorem on_joy_up_toggles E ev s :
  fan_consistent s ->
  fan_state (final (on_joy_up E ev) s) =
    (if is_released ev then flip (fan_state s) else fan_state s) /\
  fan_consistent (final (on_joy_up E ev) s) /\
  (env_interrupt E (clock s) = false -> outcome (on_joy_up E ev) s = Ok tt).
Proof.
  intros Hc. unfold final, outcome. rewrite on_joy_up_run.
  destruct (is_released ev); [|by split_and!].
  unfold fan_state. destruct (is_fan_on s) eqn:Hon; simpl.
  - split_and!; [by rewrite stop_fan_off | by apply stop_fan_consistent |].
    intros Hi. rewrite stop_fan_run. simpl. rewrite Hi. by rewrite display_success_led_run.
  - split_and!; [done | by apply start_fan_consistent | done].
Qed.

(** C24. The spec requires the stick handlers not to block; the up
    handler does: a release while the fan runs calls [stop_fan], which
    sleeps one second on the stick thread before it returns. *)
Theorem on_joy_up_blocks E ev s :
  is_released ev = true -> is_fan_on s = true -> env_interrupt E (clock s) = false ->
  outcome (on_joy_up E ev) s = Ok tt /\
  clock (final (on_joy_up E ev) s) = (clock s + 1)%nat.
Proof.
  intros Hr Hon Hi. unfold outcome, final. rewrite on_joy_up_run, Hr, Hon, stop_fan_run, Hi.
  cbn zeta. rewrite display_success_led_run. simpl. by case_match.
Qed.

(** Witnesses *)
Definition ev_down (a : action) : InputEvent := mkInputEvent DIRECTION_DOWN a.
Definition ev_up (a : action) : InputEvent := mkInputEvent DIRECTION_UP a.

Lemma s_init_relay_consistent : relay_consistent s_init.
Proof. left. by split. Qed.

Lemma dispatch_down_toggles_witness :
  let evs := [ev_down ACTION_PRESSED; ev_down ACTION_HELD; ev_down ACTION_RELEASED;
              ev_down ACTION_PRESSED; ev_down ACTION_RELEASED; ev_down ACTION_RELEASED] in
  relay_consistent s_init /\
  relay_on (final (dispatch_down evs) s_init) = xorb (relay_on s_init) (Nat.odd (count_released evs)).
Proof.
  split; [apply s_init_relay_consistent|].
  apply (dispatch_down_toggles _ s_init s_init_relay_consistent).
Defined.

Lemma on_joy_down_release_spec_witness :
  relay_consistent s_init /\ fb_wf s_init /\ is_released (ev_down ACTION_RELEASED) = true /\
  relay_on (final (on_joy_down (ev_down ACTION_RELEASED)) s_init) = negb (relay_on s_init).
Proof.
  split_and!; [apply s_init_relay_consistent | apply s_init_fb_wf | reflexivity |].
  apply (on_joy_down_release_spec (ev_down ACTION_RELEASED) s_init
           s_init_relay_consistent s_init_fb_wf eq_refl).
Defined.

Lemma s_init_fan_consistent : fan_consistent s_init.
Proof. hnf; simpl; by split_and!. Qed.

Lemma on_joy_up_toggles_witness :
  fan_consistent s_init /\
  fan_state (final (on_joy_up (calm_env 20) (ev_up ACTION_RELEASED)) s_init) = FanON.
Proof.
  split; [apply s_init_fan_consistent|].
  apply (on_joy_up_toggles (calm_env 20) (ev_up ACTION_RELEASED) s_init s_init_fan_consistent).
Defined.

Lemma on_joy_up_blocks_witness :
  is_fan_on (final start_fan s_init) = true /\
  clock (final (on_joy_up (calm_env 20) (ev_up ACTION_RELEASED)) (final start_fan s_init)) = 1%nat.
Proof.
  split; [reflexivity|].
  apply (on_joy_up_blocks (calm_env 20) (ev_up ACTION_RELEASED) (final start_fan s_init));
    reflexivity.
Defined.
