(* ===== verification/Thermal.v ===== *)
(** * The thermal probes: [get_cpu_temp], [get_gpu_temp]

    Lines 56-66 of [src/sensor.py].  The CPU probe reads the line printed
    by [vcgencmd measure_temp] (["temp=48.3'C"] and a newline), strips the
    prefix and the suffix with [str.replace] and parses the rest with
    [float]; the GPU probe parses the millidegrees of
    [/sys/class/thermal/thermal_zone0/temp] and divides by 1000.  A line
    that does not parse raises [ValueError], which [log_sensor] does not
    catch.  [get_cpu_temp_reads_firmware] and
    [get_gpu_temp_reads_millidegrees] show that each probe returns the value
    the firmware printed, for every numeral. *)

From S2P Require Import Prelude PyStr Hardware.

Local Open Scope string_scope.

Definition degree_suffix : string := String squote (String "C"%char (String nl EmptyString)).

(** Lines 57-60 *)
Definition get_cpu_temp (E : Env) : M Q :=
  res <- read_vcgencmd E ;;
  match py_float (py_replace degree_suffix "" (py_replace "temp=" "" res)) with
  | Some t => ret t
  | None => raise ValueError
  end.

(** Lines 63-66 *)
Definition get_gpu_temp (E : Env) : M Q :=
  res <- read_thermal_zone E ;;
  match py_float res with
  | Some t => ret (t / 1000)%Q
  | None => raise ValueError
  end.

Lemma get_cpu_temp_keeps {T} E (f : St -> T) : keeps f (get_cpu_temp E).
Proof. unfold get_cpu_temp. apply keeps_bind; [apply keeps_gets|]. intros a. by case_match. Qed.

Lemma get_gpu_temp_keeps {T} E (f : St -> T) : keeps f (get_gpu_temp E).
Proof. unfold get_gpu_temp. apply keeps_bind; [apply keeps_gets|]. intros a. by case_match. Qed.

#[export] Hint Resolve get_cpu_temp_keeps get_gpu_temp_keeps : pyg.

(** ** The probes read what the firmware prints *)

(** The line [vcgencmd measure_temp] prints: [temp=I.F'C] and a newline. *)
Definition vcgencmd_line (I F : list nat) : string :=
  "temp=" +:+ digits_str I +:+ String "." (digits_str F) +:+ degree_suffix.

(** The two [replace] calls of line 59 leave the numeral. *)
Lemma strip_vcgencmd_line I F :
  digits_ok I = true -> digits_ok F = true ->
  py_replace degree_suffix "" (py_replace "temp=" "" (vcgencmd_line I F)) =
    digits_str I +:+ String "." (digits_str F).
Proof.
  intros HI HF. unfold vcgencmd_line.
  assert (Hnum : forall c, digit_val c = None -> c <> "."%char ->
            has_char c (digits_str I +:+ String "." (digits_str F)) = false).
  { intros c Hc Hdot. rewrite has_char_app, has_char_digits by done. simpl.
    destruct (ascii_dec c "."); [done|]. by apply has_char_digits. }
  rewrite py_replace_hit. change (EmptyString +:+ ?x) with x.
  rewrite py_replace_none.
  2:{ rewrite !has_char_app, has_char_digits by done. simpl.
      rewrite has_char_digits by done. reflexivity. }
  rewrite str_app_assoc. unfold degree_suffix. rewrite py_replace_skip by (apply Hnum; [reflexivity | done]).
  rewrite <- (str_app_nil_r (String squote _)) at 2. rewrite py_replace_hit.
  apply str_app_nil_r.
Qed.

(** C25. Round trip of the CPU probe: whatever reading [I.F] the firmware
    prints as [temp=I.F'C] (any non-empty digit strings [I] and [F]), the
    two [replace] calls and [float] of [get_cpu_temp] return exactly the
    number [I.F], and the probe changes no state. *)
Theorem get_cpu_temp_reads_firmware E s I F :
  I <> [] -> F <> [] -> digits_ok I = true -> digits_ok F = true ->
  env_vcgencmd E (clock s) = vcgencmd_line I F ->
  exists q, get_cpu_temp E s = (Ok q, s) /\ (q == decimal_value I F)%Q.
Proof.
  intros HI HF HoI HoF Hline.
  destruct (py_float_decimal I F HI HF HoI HoF) as (q & Hq & Heq).
  exists q. split; [|exact Heq].
  unfold get_cpu_temp, bind, read_vcgencmd, gets. rewrite Hline, strip_vcgencmd_line by done.
  by rewrite Hq.
Qed.

(** C26. Round trip of the GPU probe: when the thermal zone holds the
    millidegrees [D] followed by a newline, [get_gpu_temp] returns [D]
    divided by 1000 (the newline is stripped by [float]). *)
Theorem get_gpu_temp_reads_millidegrees E s D :
  D <> [] -> digits_ok D = true ->
  env_thermal_zone E (clock s) = digits_str D +:+ String nl EmptyString ->
  exists q, get_gpu_temp E s = (Ok q, s) /\ (q == inject_Z (digits_acc D 0) / 1000)%Q.
Proof.
  intros HD HoD Hline.
  destruct (py_float_integer_line D HD HoD) as (q & Hq & Heq).
  exists (q / 1000)%Q. split; [|by rewrite Heq].
  unfold get_gpu_temp, bind, read_thermal_zone, gets. rewrite Hline. by rewrite Hq.
Qed.

(** Witnesses: the sample lines of [scenario_env], 48.3 C and 48312
    millidegrees. *)
Lemma get_cpu_temp_reads_firmware_witness :
  env_vcgencmd (calm_env 20) (clock s_init) = vcgencmd_line [4; 8]%nat [3]%nat /\
  exists q, get_cpu_temp (calm_env 20) s_init = (Ok q, s_init) /\ (q == 483 # 10)%Q.
Proof.
  assert (Hl : env_vcgencmd (calm_env 20) (clock s_init) = vcgencmd_line [4; 8]%nat [3]%nat)
    by (vm_compute; reflexivity).
  split; [exact Hl|].
  destruct (get_cpu_temp_reads_firmware (calm_env 20) s_init [4; 8]%nat [3]%nat
              ltac:(done) ltac:(done) eq_refl eq_refl Hl) as (q & Hq & Heq).
  exists q. split; [exact Hq|]. rewrite Heq. reflexivity.
Defined.

Lemma get_gpu_temp_reads_millidegrees_witness :
  env_thermal_zone (calm_env 20) (clock s_init) = digits_str [4; 8; 3; 1; 2]%nat +:+ String nl EmptyString /\
  exists q, get_gpu_temp (calm_env 20) s_init = (Ok q, s_init) /\ (q == 48312 # 1000)%Q.
Proof.
  assert (Hl : env_thermal_zone (calm_env 20) (clock s_init) =
                 digits_str [4; 8; 3; 1; 2]%nat +:+ String nl EmptyString) by (vm_compute; reflexivity).
  split; [exact Hl|].
  destruct (get_gpu_temp_reads_millidegrees (calm_env 20) s_init [4; 8; 3; 1; 2]%nat
              ltac:(done) eq_refl Hl) as (q & Hq & Heq).
  exists q. split; [exact Hq|]. rewrite Heq. reflexivity.
Defined.
