(* ===== verification/Photo.v ===== *)
(** * Capturing and uploading the photo: [ProgressPercentage], [save_photo]

    Lines 19-22 and 69-112 of [src/sensor.py].  [save_photo] names the
    photo after [str(datetime.datetime.utcnow())], captures it into
    [photos/], and uploads it to the bucket [blackholegreenhouse] under its
    file name with a [ProgressPercentage] callback.  Only a [ClientError]
    of the upload is caught (it prints, lights the error pixel and goes
    on); a camera failure, a failed [os.path.getsize], any other upload
    failure ([S3UploadFailedError], which boto3 raises for failed
    transfers) and an exception of the callback propagate to
    [log_sensor].

    The callback object is threaded through the transfer as the state
    [ProgressPercentage] of [run_callbacks]; [progress_lines] is what the
    callbacks print for a list of chunks, and [upload_progress_reaches_100]
    shows that a whole, non-empty photo ends on [(100.00%)]. *)

From S2P Require Import Prelude PyStr Hardware Status.

Local Open Scope string_scope.

(** Lines 19-22 *)
Definition s3_bucket : string := "blackholegreenhouse".
Definition photo_folder : string := "photos".

(** ** [ProgressPercentage], lines 69-85 *)

Record ProgressPercentage := mkProgressPercentage {
  pp_filename : string;
  pp_size : Q;
  pp_seen_so_far : Z;
}.

Definition cr : ascii := Ascii.ascii_of_nat 13.

(** [__init__], lines 70-74 (the lock is not needed: the transfer calls
    back from one thread). *)
Definition ProgressPercentage_init (filename : string) : M ProgressPercentage :=
  n <- getsize filename ;;
  ret (mkProgressPercentage filename (inject_Z (Z.of_nat n)) 0).

Section Photo.
Context (E : Env) (py_str_float : Q -> string).

(** [__call__], lines 75-85: the count is updated before the division,
    which raises [ZeroDivisionError] for an empty file. *)
(** Lines 80-84: the percentage and the line written to stdout. *)
Definition progress_line (filename : string) (size : Q) (seen : Z) : string :=
  let percentage := (inject_Z seen / size * 100)%Q in
  String cr (filename +:+ "  " +:+ py_str_int seen +:+ " / " +:+
             py_str_float size +:+ "  (" +:+ py_fmt_2f percentage +:+ "%)").

Definition ProgressPercentage_call (self : ProgressPercentage) (bytes_amount : nat)
    : M ProgressPercentage :=
  let seen := (pp_seen_so_far self + Z.of_nat bytes_amount)%Z in
  if Qeq_bool (pp_size self) 0 then raise ZeroDivisionError
  else
    print (progress_line (pp_filename self) (pp_size self) seen) ;;
    ret (mkProgressPercentage (pp_filename self) (pp_size self) seen).

Definition client_error_code (e : exn) : string :=
  match e with ClientError c => c | _ => EmptyString end.

(** Lines 97-112 *)
Definition save_photo : M (string * string * string) :=
  now <- utcnow_str E ;;
  let photo_file := now +:+ ".jpg" in
  let photo_path := photo_folder +:+ "/" +:+ photo_file in
  camera_capture E photo_path ;;
  try_except is_ClientError
    (cb <- ProgressPercentage_init photo_path ;;
     _ <- s3_upload_file E photo_path s3_bucket photo_file ProgressPercentage_call cb ;;
     ret tt)
    (fun e => print ("error saving photo" +:+ client_error_code e) ;; display_error_led) ;;
  print "saved photo to s3" ;;
  ret (now, photo_file, photo_path).
End Photo.

Definition photo_file_of (now : string) : string := now +:+ ".jpg".
Definition photo_path_of (now : string) : string := photo_folder +:+ "/" +:+ photo_file_of now.

(** ** The photo pipeline leaves the control state alone *)

Lemma display_error_led_keeps_ctl : keeps ctl_fields display_error_led.
Proof. unfold display_error_led. auto with pyg. Qed.

Lemma ProgressPercentage_init_keeps {T} (f : St -> T) p : keeps f (ProgressPercentage_init p).
Proof. unfold ProgressPercentage_init. eauto with pyg. Qed.

Lemma ProgressPercentage_call_keeps_ctl fs self n :
  keeps ctl_fields (ProgressPercentage_call fs self n).
Proof. unfold ProgressPercentage_call. case_match; auto with pyg. Qed.

#[export] Hint Resolve display_error_led_keeps_ctl ProgressPercentage_init_keeps
  ProgressPercentage_call_keeps_ctl : pyg.

Lemma save_photo_keeps_ctl E fs : keeps ctl_fields (save_photo E fs).
Proof. unfold save_photo. eauto 10 with pyg. Qed.

(** ** [save_photo], case by case *)

Section SavePhotoRuns.
Context (E : Env) (fs : Q -> string) (s : St).
Let now := env_utcnow E (clock s).
Let s1 (n : nat) := set_files (<[photo_path_of now := n]> (files s)) s.

Lemma save_photo_capture_fail :
  env_capture E (clock s) = CapFail -> save_photo E fs s = (Raise CameraError, s).
Proof. intros H. unfold save_photo, bind, utcnow_str, gets, camera_capture. simpl. by rewrite H. Qed.

Lemma save_photo_capture_interrupt :
  env_capture E (clock s) = CapInterrupt -> save_photo E fs s = (Raise KeyboardInterrupt, s).
Proof. intros H. unfold save_photo, bind, utcnow_str, gets, camera_capture. simpl. by rewrite H. Qed.

(** A [ClientError] of the upload is reported and swallowed. *)
Lemma save_photo_client_error n code :
  env_capture E (clock s) = CapOk n -> env_upload E (clock s) = UpClientError code ->
  save_photo E fs s =
    (Ok (now, photo_file_of now, photo_path_of now),
     set_stdout (stdout s ++ ["error saving photo" +:+ code; "saved photo to s3"])
       (set_fb (<[0%nat := red]> (fb s)) (s1 n))).
Proof.
  intros Hc Hu. unfold save_photo, utcnow_str, camera_capture, try_except,
    ProgressPercentage_init, getsize, s3_upload_file, bind, gets, ret.
  cbn -[photo_path_of]. rewrite Hc. cbn -[photo_path_of].
  fold (photo_path_of now). rewrite lookup_insert_eq. cbn -[photo_path_of]. rewrite Hu.
  cbn. by rewrite <- app_assoc.
Qed.

(** Any other failure of the transfer propagates, after the photo was
    written to the folder. *)
Lemma save_photo_upload_failed n :
  env_capture E (clock s) = CapOk n -> env_upload E (clock s) = UpFailed ->
  save_photo E fs s = (Raise S3UploadFailedError, s1 n).
Proof.
  intros Hc Hu. unfold save_photo, utcnow_str, camera_capture, try_except,
    ProgressPercentage_init, getsize, s3_upload_file, bind, gets, ret.
  cbn -[photo_path_of]. rewrite Hc. cbn -[photo_path_of].
  fold (photo_path_of now). rewrite lookup_insert_eq. cbn -[photo_path_of]. by rewrite Hu.
Qed.
End SavePhotoRuns.

(** ** The progress callback over a whole transfer *)

Definition sum_chunks (chunks : list nat) : Z := Z.of_nat (sum_list chunks).

(** What the callbacks print, one line per chunk, with the running total. *)
Fixpoint progress_lines fs (name : string) (size : Q) (seen : Z) (chunks : list nat) : list string :=
  match chunks with
  | [] => []
  | c :: cs =>
      progress_line fs name size (seen + Z.of_nat c) :: progress_lines fs name size (seen + Z.of_nat c) cs
  end.

Lemma run_progress_lines fs pp chunks s :
  Qeq_bool (pp_size pp) 0 = false ->
  run_callbacks (ProgressPercentage_call fs) pp chunks s =
    (Ok (mkProgressPercentage (pp_filename pp) (pp_size pp) (pp_seen_so_far pp + sum_chunks chunks)),
     set_stdout (stdout s ++ progress_lines fs (pp_filename pp) (pp_size pp) (pp_seen_so_far pp) chunks) s).
Proof.
  intros Hz. revert pp s Hz. induction chunks as [|c chunks IH]; intros pp s Hz; simpl.
  - rewrite app_nil_r, Z.add_0_r. by destruct pp, s.
  - unfold bind at 1, ProgressPercentage_call at 1. rewrite Hz. cbn [print modify bind ret].
    rewrite IH by done. cbn. rewrite <- app_assoc. do 3 f_equal.
    unfold sum_chunks. simpl. lia.
Qed.

Lemma run_progress fs pp chunks s :
  Qeq_bool (pp_size pp) 0 = false ->
  exists out,
    run_callbacks (ProgressPercentage_call fs) pp chunks s =
      (Ok (mkProgressPercentage (pp_filename pp) (pp_size pp) (pp_seen_so_far pp + sum_chunks chunks)),
       set_stdout (stdout s ++ out) s).
Proof. intros Hz. eexists. by apply run_progress_lines. Qed.

Lemma run_progress_empty fs pp c chunks s :
  Qeq_bool (pp_size pp) 0 = true ->
  run_callbacks (ProgressPercentage_call fs) pp (c :: chunks) s = (Raise ZeroDivisionError, s).
Proof. intros Hz. simpl. unfold bind, ProgressPercentage_call. by rewrite Hz. Qed.

Lemma Qeq_bool_nat_0 n : n <> 0%nat -> Qeq_bool (inject_Z (Z.of_nat n)) 0 = false.
Proof.
  intros Hn. apply not_true_is_false. intros H%Qeq_bool_iff.
  unfold Qeq in H. simpl in H. lia.
Qed.

(** A complete upload: the object lands in the bucket under the file
    name, with the photo's size. *)
Lemma save_photo_uploaded E fs s n chunks :
  let now := env_utcnow E (clock s) in
  env_capture E (clock s) = CapOk n -> env_upload E (clock s) = UpOk chunks -> n <> 0%nat ->
  exists out, save_photo E fs s =
    (Ok (now, photo_file_of now, photo_path_of now),
     set_stdout (stdout s ++ out ++ ["saved photo to s3"])
       (set_s3 (<[(s3_bucket, photo_file_of now) := n]> (s3_objects s))
          (set_files (<[photo_path_of now := n]> (files s)) s))).
Proof.
  intros now Hc Hu Hn. unfold save_photo, utcnow_str, camera_capture, try_except,
    ProgressPercentage_init, getsize, s3_upload_file, bind, gets, ret.
  cbn -[photo_path_of run_callbacks]. rewrite Hc. cbn -[photo_path_of run_callbacks].
  fold now. fold (photo_path_of now). rewrite lookup_insert_eq. cbn -[photo_path_of run_callbacks].
  rewrite Hu.
  match goal with
  | |- context [run_callbacks _ ?p chunks ?st] =>
      destruct (run_progress fs p chunks st (Qeq_bool_nat_0 n Hn)) as [out Hrun]
  end.
  rewrite Hrun. cbn -[photo_path_of]. rewrite lookup_insert_eq.
  exists out. cbn. by rewrite <- app_assoc.
Qed.

Lemma ProgressPercentage_call_keeps_fb fs self n : keeps fb (ProgressPercentage_call fs self n).
Proof. unfold ProgressPercentage_call. case_match; [apply keeps_raise|]. apply keeps_bind; [by intros s|]. auto with pyg. Qed.

#[export] Hint Resolve ProgressPercentage_call_keeps_fb : pyg.

Lemma save_photo_fb_wf E fs : preserves fb_wf (save_photo E fs).
Proof.
  unfold save_photo. apply preserves_bind; [auto with pyg|]. intros now.
  apply preserves_bind; [auto with pyg|]. intros [].
  apply preserves_bind; [|intros []; apply keeps_fb_preserves; auto with pyg].
  apply preserves_try.
  - apply keeps_fb_preserves. eauto with pyg.
  - intros e. apply preserves_bind; [apply keeps_fb_preserves; by intros s|].
    intros []. apply display_error_led_fb_wf.
Qed.

(** ** The progress display *)

(** ["%.2f" % 100] for a ratio [z / z]: exactly [100.00]. *)
Lemma py_fmt_2f_full (z : Z) :
  (0 < z)%Z -> py_fmt_2f (inject_Z z / inject_Z z * 100) = "100.00".
Proof.
  intros Hz. destruct z as [|p|p]; try lia. unfold py_fmt_2f.
  change (Qnum (inject_Z (Z.pos p) / inject_Z (Z.pos p) * 100)) with (Z.pos p * 1 * 100)%Z.
  change (Qden (inject_Z (Z.pos p) / inject_Z (Z.pos p) * 100)) with (1 * p * 1)%positive.
  rewrite Z.mul_1_r, Pos.mul_1_l, Pos.mul_1_r. cbv zeta.
  assert (Hr : ((200 * Z.abs (Z.pos p * 100) + Z.pos p) / (2 * Z.pos p) = 10000)%Z).
  { symmetry. apply (Z.div_unique_pos _ _ _ (Z.pos p)); lia. }
  rewrite Hr. reflexivity.
Qed.

Lemma last_progress_lines fs name size seen chunks :
  chunks <> [] ->
  last (progress_lines fs name size seen chunks) =
    Some (progress_line fs name size (seen + sum_chunks chunks)).
Proof.
  revert seen. induction chunks as [|c chunks IH]; intros seen Hc; [done|].
  destruct chunks as [|c' chunks'].
  - unfold sum_chunks. simpl. by rewrite Nat.add_0_r.
  - change (last (progress_lines fs name size seen (c :: c' :: chunks'))) with
      (last (progress_lines fs name size (seen + Z.of_nat c) (c' :: chunks'))).
    rewrite IH by done. do 2 f_equal. unfold sum_chunks. simpl. lia.
Qed.

(** C27. Upload progress: for a photo of [n > 0] bytes sent in chunks
    that add up to [n], the callback of [ProgressPercentage] never divides
    by zero, prints one line per chunk, and its last line reports the
    whole file, [n / n], as [(100.00%)]. *)
Theorem upload_progress_reaches_100 fs name n chunks s :
  n <> 0%nat -> chunks <> [] -> sum_list chunks = n ->
  exists out,
    run_callbacks (ProgressPercentage_call fs)
      (mkProgressPercentage name (inject_Z (Z.of_nat n)) 0) chunks s =
      (Ok (mkProgressPercentage name (inject_Z (Z.of_nat n)) (Z.of_nat n)),
       set_stdout (stdout s ++ out) s) /\
    length out = length chunks /\
    last out = Some (String cr (name +:+ "  " +:+ py_str_int (Z.of_nat n) +:+ " / " +:+
                      fs (inject_Z (Z.of_nat n)) +:+ "  (" +:+ "100.00" +:+ "%)")).
Proof.
  intros Hn Hc Hsum.
  assert (Hseen : (0 + sum_chunks chunks)%Z = Z.of_nat n) by (unfold sum_chunks; lia).
  exists (progress_lines fs name (inject_Z (Z.of_nat n)) 0 chunks). split_and!.
  - rewrite run_progress_lines by (by apply Qeq_bool_nat_0). simpl. by rewrite Hseen.
  - clear Hsum Hseen. generalize 0%Z. induction chunks as [|c cs IH]; [done|].
    intros z. destruct cs as [|c' cs]; [done|]. cbn [progress_lines length].
    f_equal. by apply IH.
  - rewrite last_progress_lines, Hseen by done. unfold progress_line. cbv zeta.
    rewrite py_fmt_2f_full by lia. reflexivity.
Qed.

Lemma upload_progress_reaches_100_witness :
  sum_list [600%nat; 400%nat] = 1000%nat /\
  exists out,
    last out = Some (String cr ("photos/t0.jpg" +:+ "  " +:+ py_str_int 1000 +:+ " / " +:+
                      sample_float_str (inject_Z 1000) +:+ "  (" +:+ "100.00" +:+ "%)")).
Proof.
  split; [reflexivity|].
  destruct (upload_progress_reaches_100 sample_float_str "photos/t0.jpg" 1000 [600%nat; 400%nat]
              s_init ltac:(done) ltac:(done) eq_refl) as (out & _ & _ & Hl).
  by exists out.
Defined.
