(* ===== verification/Logger.v ===== *)
(** * Logging one cycle: [log_sensor]

    Lines 24-41 and 115-147 of [src/sensor.py].  [log_sensor] calls
    [save_photo] under a bare [except:] (any exception, a keyboard
    interrupt included, prints, lights the error pixel and ends the
    function normally); it then reads the sensors into the dict [Item]
    (lines 123-135, [build_item]), puts it into the DynamoDB table, appends
    [str(Item)] without quotes and braces and with a newline to
    [./log.txt] ([log_line]), shows the success picture for two seconds,
    clears the matrix, sets [is_log_save_success] and lights the success
    pixel.  An exception after the photo (a sensor, a probe, the table,
    the file, an interrupt in the pause) propagates to [main].

    [log_record] is the part after the photo (lines 123-147), so that
    [log_sensor] reads as the code: the guarded photo, then the record. *)

From S2P Require Import Prelude PyStr Hardware Status Thermal Photo.

Local Open Scope string_scope.

(** Lines 24-41 *)
Definition log_interval : nat := 300.
Definition log_file : string := "./log.txt".
(** The colours and the success picture keep the source's one-letter
    names inside a module of their own ([O] would hide the [nat] zero). *)
Module Palette.
Definition R : color := (255, 0, 0)%Z.
Definition G : color := (0, 255, 0)%Z.
Definition B : color := (0, 0, 255)%Z.
Definition O : color := (0, 0, 0)%Z.
Definition success_pix : list color := [
  O; O; G; G; G; G; O; O;
  O; G; O; O; O; O; G; O;
  G; O; G; O; O; G; O; G;
  G; O; O; O; O; O; O; G;
  G; O; G; O; O; G; O; G;
  G; O; O; G; G; O; O; G;
  O; G; O; O; O; O; G; O;
  O; O; G; G; G; G; O; O].
End Palette.

Section Logger.
Context (E : Env) (py_str_float : Q -> string).

(** Lines 123-135: the record, in the order of the literal. *)
Definition build_item (now : string) (date : Z)
    (humidity pressure compass temperature cpu_temp gpu_temp t_hum t_press : Q)
    (photo_file : string) : ditem :=
  [("log", VStr now);
   ("date", VInt date);
   ("humidity", VStr (py_str_float humidity));
   ("pressure", VStr (py_str_float pressure));
   ("compass", VStr (py_str_float compass));
   ("temperature", VStr (py_str_float temperature));
   ("cpu_temp", VStr (py_str_float cpu_temp));
   ("gpu_temp", VStr (py_str_float gpu_temp));
   ("temperature_from_humidity", VStr (py_str_float t_hum));
   ("temperature_from_pressure", VStr (py_str_float t_press));
   ("photo", VStr photo_file)].
End Logger.

(** Line 137: [str(Item).replace("'", "").replace('{', '').replace('}', '')] *)
Definition log_line (item : ditem) : string :=
  py_replace "}" EmptyString
    (py_replace "{" EmptyString
       (py_replace (String squote EmptyString) EmptyString (py_str_dict item))).

Definition newline : string := String nl EmptyString.

Section LogSensor.
Context (E : Env) (py_str_float : Q -> string).

(** Lines 123-147 *)
Definition log_record (saved : string * string * string) : M unit :=
  let '(now, photo_file, photo_path) := saved in
  date <- time_time ;;
  humidity <- sense_get E RHumidity ;;
  pressure <- sense_get E RPressure ;;
  compass <- sense_get E RCompass ;;
  temperature <- sense_get E RTemperature ;;
  cpu_temp <- get_cpu_temp E ;;
  gpu_temp <- get_gpu_temp E ;;
  t_hum <- sense_get E RTempFromHumidity ;;
  t_press <- sense_get E RTempFromPressure ;;
  let Item := build_item py_str_float now date humidity pressure compass temperature
                cpu_temp gpu_temp t_hum t_press photo_file in
  put_item E Item ;;
  let logitem := log_line Item in
  append_file E log_file (logitem +:+ newline) ;;
  set_pixels Palette.success_pix ;;
  print logitem ;;
  print "log saved to database" ;;
  sleep E 2 ;;
  clear ;;
  modify (set_is_log_save_success true) ;;
  display_success_led.

(** Lines 115-147 *)
Definition log_sensor : M unit :=
  saved <- try_except catch_all
             (x <- save_photo E py_str_float ;; ret (Some x))
             (fun _ => print "error saving photo" ;; display_error_led ;; ret None) ;;
  match saved with
  | None => ret tt
  | Some x => log_record x
  end.
End LogSensor.

(** ** The record block when everything answers *)

Definition all_readings : list reading :=
  [RHumidity; RPressure; RCompass; RTemperature; RTempFromHumidity; RTempFromPressure].

(** The six readings and both probes answer at this moment. *)
Definition reads_ok (E : Env) (s : St) : bool :=
  forallb (fun r => bool_decide (is_Some (env_sensor E r (clock s)))) all_readings &&
  is_ok (outcome (get_cpu_temp E) s) && is_ok (outcome (get_gpu_temp E) s).

(** Every call of [log_record] answers: the reads, DynamoDB, the disk, and
    no interrupt arrives during the two-second display. *)
Definition record_env_ok (E : Env) (s : St) : bool :=
  reads_ok E s && env_put_ok E (clock s) && env_fs_ok E (clock s) &&
  negb (env_interrupt E (clock s)).

(** The state after a record was stored, logged and shown. *)
Definition record_state (s : St) (now : string) (item : ditem) : St :=
  set_fb (<[0%nat := green]> (replicate 64 black))
    (set_is_log_save_success true
      (set_clock (clock s + 2)
        (set_stdout ((stdout s ++ [log_line item]) ++ ["log saved to database"])
          (set_text_files (<[log_file := file_text s log_file +:+ (log_line item +:+ newline)]>
                             (text_files s))
            (set_table (<[now := item]> (table s)) s))))).

Lemma probe_Ok {T} (m : M T) s v :
  keeps (fun s => s) m -> outcome m s = Ok v -> m s = (Ok v, s).
Proof. intros H Ho. unfold outcome in Ho. specialize (H s). destruct (m s). simpl in *. by subst. Qed.

(** Run the reads of [log_record] (lines 124-133) under [reads_ok]: the
    goal is left at [put_item] with the item of the values read, which
    [Hitem] names. *)
Ltac run_reads Hreads :=
  unfold reads_ok in Hreads; repeat rewrite andb_true_iff in Hreads;
  let Hr := fresh in let Hcpu := fresh in let Hgpu := fresh in
  destruct Hreads as ((Hr & Hcpu) & Hgpu); simpl in Hr; repeat rewrite andb_true_iff in Hr;
  let H1 := fresh in let H2 := fresh in let H3 := fresh in
  let H4 := fresh in let H5 := fresh in let H6 := fresh in
  destruct Hr as (H1 & H2 & H3 & H4 & H5 & H6 & _);
  let finish_opt E r s v Hv :=
    destruct (env_sensor E r (clock s)) as [v|] eqn:Hv; [|done] in
  lazymatch goal with
  | |- context [log_record ?E ?fs (?now, ?pf, ?pp) ?s] =>
      let h := fresh "h" in let p := fresh "p" in let c := fresh "c" in let t := fresh "t" in
      let th := fresh "th" in let tp := fresh "tp" in let cpu := fresh "cpu" in let gpu := fresh "gpu" in
      let Eh := fresh in let Ep := fresh in let Ec := fresh in let Et := fresh in
      let Eth := fresh in let Etp := fresh in let Ecpu := fresh in let Egpu := fresh in
      finish_opt E RHumidity s h Eh; finish_opt E RPressure s p Ep;
      finish_opt E RCompass s c Ec; finish_opt E RTemperature s t Et;
      finish_opt E RTempFromHumidity s th Eth; finish_opt E RTempFromPressure s tp Etp;
      destruct (outcome (get_cpu_temp E) s) as [cpu|] eqn:Ecpu; [|done];
      destruct (outcome (get_gpu_temp E) s) as [gpu|] eqn:Egpu; [|done];
      let item := constr:(build_item fs now (Z.of_nat (clock s)) h p c t cpu gpu th tp pf) in
      let Hitem := fresh "Hitem" in
      remember item as it eqn:Hitem;
      unfold log_record;
      py_bind (eq_refl : time_time s = (Ok (Z.of_nat (clock s)), s));
      py_bind (sense_get_Some E _ _ _ Eh); py_bind (sense_get_Some E _ _ _ Ep);
      py_bind (sense_get_Some E _ _ _ Ec); py_bind (sense_get_Some E _ _ _ Et);
      py_bind (probe_Ok _ s _ (get_cpu_temp_keeps E (fun s => s)) Ecpu);
      py_bind (probe_Ok _ s _ (get_gpu_temp_keeps E (fun s => s)) Egpu);
      py_bind (sense_get_Some E _ _ _ Eth); py_bind (sense_get_Some E _ _ _ Etp);
      rewrite <- Hitem
  end.

Lemma log_record_run E fs now pf pp s :
  record_env_ok E s = true ->
  exists item,
    attr "log" item = Some (VStr now) /\ attr "photo" item = Some (VStr pf) /\
    log_record E fs (now, pf, pp) s = (Ok tt, record_state s now item).
Proof.
  intros Hok. unfold record_env_ok in Hok. repeat rewrite andb_true_iff in Hok.
  destruct Hok as (((Hreads & Hput) & Hfs) & Hint%negb_true_iff).
  run_reads Hreads.
  exists it. subst it. split; [reflexivity|]. split; [reflexivity|].
  erewrite bind_Ok; [cbv beta | apply put_item_run; [reflexivity | exact Hput]].
  erewrite bind_Ok; [cbv beta | apply append_file_run, Hfs].
  unfold bind, set_pixels, print, modify, clear. cbn -[log_line].
  rewrite sleep_run by done. cbn -[log_line].
  reflexivity.
Qed.

(** DynamoDB refuses the item: the exception propagates before the log
    file is touched, and nothing has changed. *)
Lemma log_record_put_fail E fs now pf pp s :
  reads_ok E s = true -> env_put_ok E (clock s) = false ->
  log_record E fs (now, pf, pp) s =
    (Raise (ClientError "ProvisionedThroughputExceededException"), s).
Proof.
  intros Hreads Hput. run_reads Hreads. subst it.
  refine (bind_Raise _ _ _ _ _ _). eapply put_item_fail; [reflexivity | exact Hput].
Qed.

(** The disk refuses the line: the item is in the table, the log is not
    extended, the exception propagates. *)
Lemma log_record_fs_fail E fs now pf pp s :
  reads_ok E s = true -> env_put_ok E (clock s) = true -> env_fs_ok E (clock s) = false ->
  exists item, attr "photo" item = Some (VStr pf) /\
    log_record E fs (now, pf, pp) s = (Raise IOError, set_table (<[now := item]> (table s)) s).
Proof.
  intros Hreads Hput Hfs. run_reads Hreads. exists it. subst it. split; [reflexivity|].
  erewrite bind_Ok; [cbv beta | apply put_item_run; [reflexivity | exact Hput]].
  refine (bind_Raise _ _ _ _ _ _). unfold append_file. simpl. by rewrite Hfs.
Qed.

(** An interrupt during the two-second display: the record is already in
    the table and in the log; [KeyboardInterrupt] propagates with the
    success picture still on the matrix. *)
Lemma log_record_interrupted E fs now pf pp s :
  reads_ok E s = true -> env_put_ok E (clock s) = true -> env_fs_ok E (clock s) = true ->
  env_interrupt E (clock s) = true ->
  exists item s', attr "photo" item = Some (VStr pf) /\
    log_record E fs (now, pf, pp) s = (Raise KeyboardInterrupt, s') /\
    table s' = <[now := item]> (table s) /\
    file_text s' log_file = file_text s log_file +:+ (log_line item +:+ newline) /\
    fb s' = Palette.success_pix /\ is_log_save_success s' = is_log_save_success s.
Proof.
  intros Hreads Hput Hfs Hint. run_reads Hreads. exists it. subst it. eexists.
  split; [reflexivity|].
  erewrite bind_Ok; [cbv beta | apply put_item_run; [reflexivity | exact Hput]].
  erewrite bind_Ok; [cbv beta | apply append_file_run, Hfs].
  unfold bind, set_pixels, print, modify. cbn -[log_line].
  rewrite sleep_interrupted by done. split; [reflexivity|].
  unfold file_text. simpl. by rewrite lookup_insert_eq.
Qed.

(** ** [log_sensor]: the photo, then the record *)

Lemma log_sensor_photo_failed E fs s e s1 :
  save_photo E fs s = (Raise e, s1) ->
  log_sensor E fs s =
    (Ok tt, set_fb (<[0%nat := red]> (fb s1)) (set_stdout (stdout s1 ++ ["error saving photo"]) s1)).
Proof. intros H. unfold log_sensor. cbv [bind try_except ret]. by rewrite H. Qed.

Lemma log_sensor_photo_saved E fs s x s1 :
  save_photo E fs s = (Ok x, s1) -> log_sensor E fs s = log_record E fs x s1.
Proof. intros H. unfold log_sensor. cbv [bind try_except ret]. by rewrite H. Qed.

Lemma get_cpu_temp_clock E s1 s2 :
  clock s1 = clock s2 -> outcome (get_cpu_temp E) s1 = outcome (get_cpu_temp E) s2.
Proof. intros H. unfold outcome, get_cpu_temp, bind, read_vcgencmd, gets. simpl. rewrite H. by case_match. Qed.

Lemma get_gpu_temp_clock E s1 s2 :
  clock s1 = clock s2 -> outcome (get_gpu_temp E) s1 = outcome (get_gpu_temp E) s2.
Proof. intros H. unfold outcome, get_gpu_temp, bind, read_thermal_zone, gets. simpl. rewrite H. by case_match. Qed.

Lemma reads_ok_clock E s1 s2 : clock s1 = clock s2 -> reads_ok E s1 = reads_ok E s2.
Proof. intros H. unfold reads_ok. by rewrite H, (get_cpu_temp_clock E s1 s2 H), (get_gpu_temp_clock E s1 s2 H). Qed.

Lemma record_env_ok_clock E s1 s2 : clock s1 = clock s2 -> record_env_ok E s1 = record_env_ok E s2.
Proof. intros H. unfold record_env_ok. by rewrite (reads_ok_clock E s1 s2 H), H. Qed.

Lemma record_state_pixel00 s now item : pixel (record_state s now item) 0 0 = Some green.
Proof. reflexivity. Qed.

Lemma record_state_log s now item :
  file_text (record_state s now item) log_file = file_text s log_file +:+ (log_line item +:+ newline).
Proof. unfold file_text. simpl. by rewrite lookup_insert_eq. Qed.

(** ** What one call of [log_sensor] stores *)

(** C5. When [save_photo] raises anything (a camera failure, a keyboard
    interrupt during the capture, a failed transfer that is not a
    [ClientError], an empty photo), [log_sensor] catches it with its bare
    [except:], returns normally and stores nothing: the table, the log
    file, the flags, the relays and the clock are as before; pixel (0,0)
    is red. *)
Theorem log_sensor_photo_error E fs s e s1 :
  save_photo E fs s = (Raise e, s1) -> fb_wf s ->
  outcome (log_sensor E fs) s = Ok tt /\
  ctl_fields (final (log_sensor E fs) s) = ctl_fields s /\
  pixel (final (log_sensor E fs) s) 0 0 = Some red.
Proof.
  intros Hp Hwf. unfold outcome, final. rewrite (log_sensor_photo_failed _ _ _ _ _ Hp). simpl.
  pose proof (save_photo_keeps_ctl E fs s) as Hctl. pose proof (save_photo_fb_wf E fs s Hwf) as Hwf1.
  rewrite Hp in Hctl, Hwf1. simpl in Hctl, Hwf1. split_and!; [done | exact Hctl |].
  unfold pixel. simpl. apply list_lookup_insert_eq. unfold fb_wf in Hwf1. lia.
Qed.

(** C6. A keyboard interrupt that arrives while the camera captures is
    swallowed by the bare [except:] of [log_sensor]: the call returns
    normally, as after a camera error, instead of stopping the program. *)
Theorem log_sensor_swallows_interrupt E fs s :
  env_capture E (clock s) = CapInterrupt ->
  outcome (log_sensor E fs) s = Ok tt /\ final (log_sensor E fs) s =
    set_fb (<[0%nat := red]> (fb s)) (set_stdout (stdout s ++ ["error saving photo"]) s).
Proof.
  intros Hc. unfold outcome, final.
  by rewrite (log_sensor_photo_failed _ _ _ _ _ (save_photo_capture_interrupt E fs s Hc)).
Qed.

(** C7. A failed transfer that boto3 reports as [S3UploadFailedError]
    (what [upload_file] raises when S3 rejects the object or the network
    fails) is not the [ClientError] that [save_photo] catches: the cycle
    is abandoned and no record reaches the table or the log, although
    the photo was taken. *)
Theorem log_sensor_upload_failed_no_record E fs s n :
  env_capture E (clock s) = CapOk n -> env_upload E (clock s) = UpFailed ->
  outcome (log_sensor E fs) s = Ok tt /\
  table (final (log_sensor E fs) s) = table s /\
  text_files (final (log_sensor E fs) s) = text_files s /\
  files (final (log_sensor E fs) s) !! photo_path_of (env_utcnow E (clock s)) = Some n.
Proof.
  intros Hc Hu. unfold outcome, final.
  rewrite (log_sensor_photo_failed _ _ _ _ _ (save_photo_upload_failed E fs s n Hc Hu)).
  simpl. split_and!; try done. by rewrite lookup_insert_eq.
Qed.

(** C8. Partial failure: S3 rejects the photo with a [ClientError], and
    [log_sensor] still stores the record, whose [photo] attribute is the
    local file name, in the table under the capture time and as one more
    line of [./log.txt]. *)
Theorem log_sensor_upload_rejected_persists E fs s n code :
  let now := env_utcnow E (clock s) in
  env_capture E (clock s) = CapOk n -> env_upload E (clock s) = UpClientError code ->
  record_env_ok E s = true ->
  outcome (log_sensor E fs) s = Ok tt /\
  exists item, attr "photo" item = Some (VStr (photo_file_of now)) /\
    table (final (log_sensor E fs) s) = <[now := item]> (table s) /\
    file_text (final (log_sensor E fs) s) log_file =
      file_text s log_file +:+ (log_line item +:+ newline).
Proof.
  intros now Hc Hu Hok. unfold outcome, final.
  rewrite (log_sensor_photo_saved _ _ _ _ _ (save_photo_client_error E fs s n code Hc Hu)).
  edestruct log_record_run as (item & _ & Hph & ->); [by erewrite record_env_ok_clock|].
  split; [done|]. exists item. split_and!; [done | done | cbn [snd]; by rewrite record_state_log].
Qed.

(** C9. The error pixel that the rejected upload lit does not survive
    the cycle: the success display of the same call clears the matrix and
    paints pixel (0,0) green, so a cycle whose photo never reached S3 ends
    showing success. *)
Theorem log_sensor_upload_rejected_shows_success E fs s n code :
  env_capture E (clock s) = CapOk n -> env_upload E (clock s) = UpClientError code ->
  record_env_ok E s = true ->
  pixel (final (log_sensor E fs) s) 0 0 = Some green.
Proof.
  intros Hc Hu Hok. unfold final.
  rewrite (log_sensor_photo_saved _ _ _ _ _ (save_photo_client_error E fs s n code Hc Hu)).
  edestruct log_record_run as (item & _ & _ & ->); [by erewrite record_env_ok_clock|].
  apply record_state_pixel00.
Qed.

(** A complete [log_sensor] call: the photo is saved, then the record. *)
Lemma log_sensor_full_run E fs s n chunks :
  let now := env_utcnow E (clock s) in
  env_capture E (clock s) = CapOk n -> env_upload E (clock s) = UpOk chunks -> n <> 0%nat ->
  record_env_ok E s = true ->
  exists out item,
    attr "log" item = Some (VStr now) /\ attr "photo" item = Some (VStr (photo_file_of now)) /\
    log_sensor E fs s =
      (Ok tt, record_state
                (set_stdout (stdout s ++ out ++ ["saved photo to s3"])
                  (set_s3 (<[(s3_bucket, photo_file_of now) := n]> (s3_objects s))
                    (set_files (<[photo_path_of now := n]> (files s)) s))) now item).
Proof.
  intros now Hc Hu Hn Hok.
  destruct (save_photo_uploaded E fs s n chunks Hc Hu Hn) as [out Hsave].
  rewrite (log_sensor_photo_saved _ _ _ _ _ Hsave).
  match goal with
  | |- context [log_record E fs (?a, ?b, ?c) ?st] =>
      destruct (log_record_run E fs a b c st) as (item & Hlog & Hph & Hrun);
        [by erewrite record_env_ok_clock|]
  end.
  exists out, item. split_and!; [exact Hlog | exact Hph | exact Hrun].
Qed.

(** C10. A full cycle: the photo is in the bucket, the record (keyed by the
    capture time, with the photo's file name) is in the table and is the
    new last line of [./log.txt], [is_log_save_success] is set, pixel
    (0,0) is green and two seconds have passed. *)
Theorem log_sensor_success E fs s n chunks :
  let now := env_utcnow E (clock s) in
  env_capture E (clock s) = CapOk n -> env_upload E (clock s) = UpOk chunks -> n <> 0%nat ->
  record_env_ok E s = true ->
  let s' := final (log_sensor E fs) s in
  outcome (log_sensor E fs) s = Ok tt /\
  s3_objects s' !! (s3_bucket, photo_file_of now) = Some n /\
  (exists item, attr "log" item = Some (VStr now) /\
     attr "photo" item = Some (VStr (photo_file_of now)) /\
     table s' = <[now := item]> (table s) /\
     file_text s' log_file = file_text s log_file +:+ (log_line item +:+ newline)) /\
  is_log_save_success s' = true /\ pixel s' 0 0 = Some green /\ clock s' = (clock s + 2)%nat.
Proof.
  intros now Hc Hu Hn Hok s'. subst s'. unfold outcome, final.
  destruct (log_sensor_full_run E fs s n chunks Hc Hu Hn Hok) as (out & item & Hlog & Hph & ->).
  split_and!; try done.
  - simpl. by rewrite lookup_insert_eq.
  - exists item. split_and!; [done | done | done | cbn [snd]; by rewrite record_state_log].
Qed.

(** C11. The success display of a full cycle clears the whole matrix, the
    pixel (0,2) of the second relay included: after the cycle the relay is
    still on but its blue pixel is black. *)
Theorem log_sensor_success_erases_relay_pixel E fs s n chunks :
  env_capture E (clock s) = CapOk n -> env_upload E (clock s) = UpOk chunks -> n <> 0%nat ->
  record_env_ok E s = true -> od_value (relay2 s) = true ->
  od_value (relay2 (final (log_sensor E fs) s)) = true /\
  pixel (final (log_sensor E fs) s) 0 2 = Some black.
Proof.
  intros Hc Hu Hn Hok Hr. unfold final.
  destruct (save_photo_uploaded E fs s n chunks Hc Hu Hn) as [out Hsave].
  rewrite (log_sensor_photo_saved _ _ _ _ _ Hsave).
  edestruct log_record_run as (item & _ & _ & ->); [by erewrite record_env_ok_clock|].
  by split.
Qed.

(** C12. When DynamoDB refuses the record, the [ClientError] leaves
    [log_sensor] (it is fatal in [main]) and neither the table nor the log
    file has changed. *)
Theorem log_sensor_put_error E fs s n chunks :
  env_capture E (clock s) = CapOk n -> env_upload E (clock s) = UpOk chunks -> n <> 0%nat ->
  reads_ok E s = true -> env_put_ok E (clock s) = false ->
  outcome (log_sensor E fs) s = Raise (ClientError "ProvisionedThroughputExceededException") /\
  table (final (log_sensor E fs) s) = table s /\
  text_files (final (log_sensor E fs) s) = text_files s.
Proof.
  intros Hc Hu Hn Hr Hp. unfold outcome, final.
  destruct (save_photo_uploaded E fs s n chunks Hc Hu Hn) as [out Hsave].
  rewrite (log_sensor_photo_saved _ _ _ _ _ Hsave), log_record_put_fail; try done.
  by erewrite reads_ok_clock.
Qed.

Lemma log_line_newlines item : count_char nl (log_line item +:+ newline) = 1%nat.
Proof.
  unfold log_line. rewrite !py_replace_char_remove.
  rewrite count_char_app, (count_char_all_chars nl printable); [done|done|].
  apply str_remove_all_chars, str_remove_all_chars, str_remove_all_chars, py_str_dict_printable.
Qed.

(** C13. Every log line is one line: [str] of the item escapes newlines
    (and every other control character) through [repr], the three
    [replace] calls only delete characters, so the text appended to
    [./log.txt] holds exactly one newline, at its end, and no quote or
    brace. *)
Theorem log_line_one_line item :
  count_char nl (log_line item +:+ newline) = 1%nat /\
  has_char squote (log_line item) = false /\
  has_char "{" (log_line item) = false /\ has_char "}" (log_line item) = false.
Proof.
  split; [apply log_line_newlines|].
  unfold log_line. rewrite !py_replace_char_remove. split_and!.
  - apply has_char_str_remove, has_char_str_remove, str_remove_no_char.
  - apply has_char_str_remove, str_remove_no_char.
  - apply str_remove_no_char.
Qed.

(** ** Witnesses *)

Definition env_cam_fail : Env := scenario_env 20 CapFail (UpOk [1000%nat]) true false.
Definition env_cam_intr : Env := scenario_env 20 CapInterrupt (UpOk [1000%nat]) true false.
Definition env_up_failed : Env := scenario_env 20 (CapOk 1000) UpFailed true false.
Definition env_up_rejected : Env :=
  scenario_env 20 (CapOk 1000) (UpClientError "AccessDenied") true false.
Definition env_put_refused : Env := scenario_env 20 (CapOk 1000) (UpOk [1000%nat]) false false.

Lemma log_sensor_photo_error_witness :
  save_photo env_cam_fail sample_float_str s_init = (Raise CameraError, s_init) /\
  fb_wf s_init /\
  outcome (log_sensor env_cam_fail sample_float_str) s_init = Ok tt.
Proof.
  assert (Hp : save_photo env_cam_fail sample_float_str s_init = (Raise CameraError, s_init))
    by reflexivity.
  split_and!; [exact Hp | exact s_init_fb_wf |].
  apply (log_sensor_photo_error _ _ _ _ _ Hp s_init_fb_wf).
Defined.

Lemma log_sensor_swallows_interrupt_witness :
  env_capture env_cam_intr (clock s_init) = CapInterrupt /\
  outcome (log_sensor env_cam_intr sample_float_str) s_init = Ok tt.
Proof.
  split; [reflexivity|].
  apply (log_sensor_swallows_interrupt env_cam_intr sample_float_str s_init eq_refl).
Defined.

Lemma log_sensor_upload_failed_no_record_witness :
  env_capture env_up_failed (clock s_init) = CapOk 1000 /\
  env_upload env_up_failed (clock s_init) = UpFailed /\
  table (final (log_sensor env_up_failed sample_float_str) s_init) = table s_init.
Proof.
  split_and!; [reflexivity | reflexivity |].
  apply (log_sensor_upload_failed_no_record env_up_failed sample_float_str s_init 1000
           eq_refl eq_refl).
Defined.

Lemma log_sensor_upload_rejected_persists_witness :
  env_capture env_up_rejected (clock s_init) = CapOk 1000 /\
  env_upload env_up_rejected (clock s_init) = UpClientError "AccessDenied" /\
  record_env_ok env_up_rejected s_init = true /\
  outcome (log_sensor env_up_rejected sample_float_str) s_init = Ok tt.
Proof.
  split_and!; [reflexivity | reflexivity | reflexivity |].
  apply (log_sensor_upload_rejected_persists env_up_rejected sample_float_str s_init 1000
           "AccessDenied" eq_refl eq_refl eq_refl).
Defined.

Lemma log_sensor_upload_rejected_shows_success_witness :
  record_env_ok env_up_rejected s_init = true /\
  pixel (final (log_sensor env_up_rejected sample_float_str) s_init) 0 0 = Some green.
Proof.
  split; [reflexivity|].
  apply (log_sensor_upload_rejected_shows_success env_up_rejected sample_float_str s_init 1000
           "AccessDenied" eq_refl eq_refl eq_refl).
Defined.

Lemma log_sensor_success_witness :
  record_env_ok (calm_env 20) s_init = true /\
  outcome (log_sensor (calm_env 20) sample_float_str) s_init = Ok tt.
Proof.
  split; [reflexivity|].
  apply (log_sensor_success (calm_env 20) sample_float_str s_init 1000 [1000%nat]
           eq_refl eq_refl ltac:(lia) eq_refl).
Defined.

(** The state of [s_init] with the second relay switched on. *)
Definition s_relay_on : St :=
  set_relay2 (mkOutputDevice false true) (set_is_relay2_on 1 s_init).

Lemma log_sensor_success_erases_relay_pixel_witness :
  od_value (relay2 s_relay_on) = true /\
  pixel (final (log_sensor (calm_env 20) sample_float_str) s_relay_on) 0 2 = Some black.
Proof.
  split; [reflexivity|].
  apply (log_sensor_success_erases_relay_pixel (calm_env 20) sample_float_str s_relay_on 1000
           [1000%nat] eq_refl eq_refl ltac:(lia) eq_refl eq_refl).
Defined.

Lemma log_sensor_put_error_witness :
  reads_ok env_put_refused s_init = true /\ env_put_ok env_put_refused (clock s_init) = false /\
  table (final (log_sensor env_put_refused sample_float_str) s_init) = table s_init.
Proof.
  split_and!; [reflexivity | reflexivity |].
  apply (log_sensor_put_error env_put_refused sample_float_str s_init 1000 [1000%nat]
           eq_refl eq_refl ltac:(lia) eq_refl eq_refl).
Defined.
