(* ===== verification/MainLoop.v ===== *)
(** * The main loop: [main]

    Lines 199-214 of [src/sensor.py]: forever [log_sensor],
    [turn_on_fan_if_hot], [sleep(log_interval)].  A [KeyboardInterrupt]
    clears the matrix and prints a farewell; any other [Exception] lights
    the error pixel and prints the traceback; both then call
    [sys.exit(0)], which raises [SystemExit(0)].  There is no retry.

    [loop fuel] runs at most [fuel] cycles of the [while True]; when the
    fuel runs out the program is still running, and [main fuel] returns
    [Ok tt] instead of reaching [sys.exit].  A run that ends within the
    fuel ends with [SystemExit 0].  The theorems hold for every fuel. *)

From S2P Require Import Prelude PyStr Hardware Status Fan Thermal Photo Logger.

Local Open Scope string_scope.

Section Main.
Context (E : Env) (py_str_float : Q -> string).

(** One iteration of [while True] (lines 202-204). *)
Definition cycle : M unit :=
  log_sensor E py_str_float ;;
  turn_on_fan_if_hot E py_str_float ;;
  sleep E log_interval.

Fixpoint loop (fuel : nat) : M unit :=
  match fuel with
  | O => ret tt
  | S f => cycle ;; loop f
  end.

(** The two [except] clauses of lines 205-210, tried in order. *)
Definition main_catches (e : exn) : bool :=
  bool_decide (e = KeyboardInterrupt) || is_Exception e.

Definition main_handler (e : exn) : M unit :=
  if bool_decide (e = KeyboardInterrupt) then
    clear ;;
    print "Exiting sensor logger"
  else
    display_error_led ;;
    print "Traceback (most recent call last)".

(** Lines 199-211: [true] while the loop still runs when the fuel ends. *)
Definition main (fuel : nat) : M unit :=
  running <- try_except main_catches
               (loop fuel ;; ret true)
               (fun e => main_handler e ;; ret false) ;;
  if running then ret tt else raise (SystemExit 0).
End Main.

(** ** Nothing in the loop calls [sys.exit] *)

Lemma display_error_led_no_exit : no_exit display_error_led.
Proof. unfold display_error_led. auto with pyg. Qed.
Lemma display_success_led_no_exit : no_exit display_success_led.
Proof. unfold display_success_led. auto with pyg. Qed.
Lemma start_fan_no_exit : no_exit start_fan.
Proof. unfold start_fan, fan_animation_play. auto with pyg. Qed.
Lemma stop_fan_no_exit E : no_exit (stop_fan E).
Proof. unfold stop_fan, fan_animation_stop. auto using display_success_led_no_exit with pyg. Qed.
Lemma turn_on_fan_if_hot_no_exit E fs : no_exit (turn_on_fan_if_hot E fs).
Proof. unfold turn_on_fan_if_hot. auto 10 using start_fan_no_exit, stop_fan_no_exit with pyg. Qed.
Lemma get_cpu_temp_no_exit E : no_exit (get_cpu_temp E).
Proof. unfold get_cpu_temp. apply no_exit_bind; [auto with pyg|]. intros a. case_match; auto with pyg. Qed.
Lemma get_gpu_temp_no_exit E : no_exit (get_gpu_temp E).
Proof. unfold get_gpu_temp. apply no_exit_bind; [auto with pyg|]. intros a. case_match; auto with pyg. Qed.
Lemma ProgressPercentage_call_no_exit fs self n : no_exit (ProgressPercentage_call fs self n).
Proof. unfold ProgressPercentage_call. case_match; auto with pyg. Qed.

#[export] Hint Resolve display_error_led_no_exit display_success_led_no_exit start_fan_no_exit
  stop_fan_no_exit turn_on_fan_if_hot_no_exit get_cpu_temp_no_exit get_gpu_temp_no_exit
  ProgressPercentage_call_no_exit : pyg.

Lemma save_photo_no_exit E fs : no_exit (save_photo E fs).
Proof. unfold save_photo, ProgressPercentage_init. eauto 12 with pyg. Qed.

Lemma log_record_no_exit E fs x : no_exit (log_record E fs x).
Proof. destruct x as [[now pf] pp]. unfold log_record. eauto 30 with pyg. Qed.

Lemma log_sensor_no_exit E fs : no_exit (log_sensor E fs).
Proof.
  unfold log_sensor. apply no_exit_bind.
  - apply no_exit_try; [apply no_exit_bind; auto using save_photo_no_exit with pyg|].
    intros e. auto 6 with pyg.
  - intros [x|]; [apply log_record_no_exit | auto with pyg].
Qed.

Lemma loop_no_exit E fs fuel : no_exit (loop E fs fuel).
Proof.
  induction fuel as [|fuel IH]; simpl; [auto with pyg|].
  apply no_exit_bind; [|intros []; exact IH].
  unfold cycle. auto using log_sensor_no_exit with pyg.
Qed.

(** ** How [main] ends *)

Lemma main_catches_all e : (forall c, e <> SystemExit c) -> main_catches e = true.
Proof. intros H. unfold main_catches. destruct e; try done. by destruct (H code). Qed.

Lemma main_handler_run e s :
  main_handler e s =
    if bool_decide (e = KeyboardInterrupt)
    then (Ok tt, set_stdout (stdout s ++ ["Exiting sensor logger"]) (set_fb (replicate 64 black) s))
    else (Ok tt, set_stdout (stdout s ++ ["Traceback (most recent call last)"])
                   (set_fb (<[0%nat := red]> (fb s)) s)).
Proof. unfold main_handler. by case_bool_decide. Qed.

Lemma main_loop_raised E fs fuel s e s1 :
  loop E fs fuel s = (Raise e, s1) ->
  main E fs fuel s = (Raise (SystemExit 0), snd (main_handler e s1)).
Proof.
  intros Hl. pose proof (loop_no_exit E fs fuel s) as Hne. rewrite Hl in Hne. simpl in Hne.
  unfold main. rewrite (bind_Ok _ _ s false (snd (main_handler e s1))); [done|].
  rewrite (try_except_caught _ _ _ s e s1).
  - cbv [bind ret]. rewrite main_handler_run. by case_bool_decide.
  - apply (bind_Raise _ _ _ _ _ Hl).
  - apply main_catches_all. intros c ->. done.
Qed.

Lemma main_loop_running E fs fuel s s1 :
  loop E fs fuel s = (Ok tt, s1) -> main E fs fuel s = (Ok tt, s1).
Proof.
  intros Hl. unfold main. rewrite (bind_Ok _ _ s true s1); [done|].
  apply try_except_Ok. by rewrite (bind_Ok _ _ _ _ _ Hl).
Qed.

(** C14. Whatever the world does, [main] either is still looping when
    the fuel ends or ends with [SystemExit 0]: the graceful path (a
    keyboard interrupt) and the fatal path (any other exception) report
    the same exit code 0. *)
Theorem main_exit_code_zero E fs fuel s :
  outcome (main E fs fuel) s = Ok tt \/ outcome (main E fs fuel) s = Raise (SystemExit 0).
Proof.
  unfold outcome. destruct (loop E fs fuel s) as [[[]|e] s1] eqn:Hl.
  - left. by rewrite (main_loop_running _ _ _ _ _ Hl).
  - right. by rewrite (main_loop_raised _ _ _ _ _ _ Hl).
Qed.

(** C15. A keyboard interrupt that leaves the loop ends the program
    gracefully: the matrix is cleared, the farewell is printed, and the
    program exits with code 0. *)
Theorem main_interrupt_graceful E fs fuel s s1 :
  loop E fs fuel s = (Raise KeyboardInterrupt, s1) ->
  outcome (main E fs fuel) s = Raise (SystemExit 0) /\
  fb (final (main E fs fuel) s) = replicate 64 black /\
  last (stdout (final (main E fs fuel) s)) = Some "Exiting sensor logger".
Proof.
  intros Hl. unfold outcome, final. rewrite (main_loop_raised _ _ _ _ _ _ Hl).
  rewrite main_handler_run. simpl. split_and!; try done. by rewrite last_snoc.
Qed.

(** C16. Any other exception that leaves the loop (a sensor, a probe,
    DynamoDB, the disk) ends the program at once, with no retry: pixel
    (0,0) turns red, the traceback is printed, the table, the log and the
    clock stay as the failure left them, and the exit code is 0 as for
    the graceful path. *)
Theorem main_fatal_error E fs fuel s e s1 :
  loop E fs fuel s = (Raise e, s1) -> e <> KeyboardInterrupt -> fb_wf s1 ->
  outcome (main E fs fuel) s = Raise (SystemExit 0) /\
  pixel (final (main E fs fuel) s) 0 0 = Some red /\
  ctl_fields (final (main E fs fuel) s) = ctl_fields s1 /\
  last (stdout (final (main E fs fuel) s)) = Some "Traceback (most recent call last)".
Proof.
  intros Hl He Hwf. unfold outcome, final. rewrite (main_loop_raised _ _ _ _ _ _ Hl).
  rewrite main_handler_run. rewrite bool_decide_false by done. simpl.
  split_and!; try done.
  - unfold pixel. simpl. apply list_lookup_insert_eq. unfold fb_wf in Hwf. lia.
  - by rewrite last_snoc.
Qed.

(** ** A cycle whose capture fails *)

(** What is stored: the table and the text files. *)
Definition store_fields (s : St) := (table s, text_files s).

Lemma sleep_keeps_store E n : keeps store_fields (sleep E n). Proof. solve_keeps sleep. Qed.
Lemma set_pixel_keeps_store x y c : keeps store_fields (set_pixel x y c). Proof. solve_keeps set_pixel. Qed.
#[export] Hint Resolve sleep_keeps_store set_pixel_keeps_store : pyg.

Lemma turn_on_fan_if_hot_keeps_store E fs : keeps store_fields (turn_on_fan_if_hot E fs).
Proof.
  unfold turn_on_fan_if_hot, start_fan, stop_fan, fan_on, fan_off, fan_animation_play,
    fan_animation_stop, display_success_led.
  eauto 20 with pyg.
Qed.

(** The thermostat returns normally and adds at most the one second of
    [stop_fan] to the clock, when the temperature can be read and no
    interrupt comes. *)
Lemma turn_on_fan_if_hot_clock E fs s temp :
  env_sensor E RTemperature (clock s) = Some temp -> env_interrupt E (clock s) = false ->
  outcome (turn_on_fan_if_hot E fs) s = Ok tt /\
  (clock (final (turn_on_fan_if_hot E fs) s) = clock s \/
   clock (final (turn_on_fan_if_hot E fs) s) = S (clock s)).
Proof.
  intros Ht Hi. split; [by apply (turn_on_fan_if_hot_returns E fs s temp)|].
  unfold final. rewrite (turn_on_fan_if_hot_run E fs s temp Ht).
  repeat case_match; rewrite ?print_then, ?stop_fan_run; simpl; rewrite ?Hi; try (left; done).
  right. rewrite display_success_led_run. case_match; simpl; lia.
Qed.

(** C17. A cycle whose camera fails stores nothing, returns normally, and
    the loop goes on: after the thermostat check and the five-minute
    sleep the next cycle starts from the state the failed one left. *)
Theorem cycle_capture_fail_continues E fs s temp :
  env_capture E (clock s) = CapFail ->
  env_sensor E RTemperature (clock s) = Some temp ->
  env_interrupt E (clock s) = false -> env_interrupt E (S (clock s)) = false ->
  outcome (cycle E fs) s = Ok tt /\
  store_fields (final (cycle E fs) s) = store_fields s /\
  (clock s + log_interval <= clock (final (cycle E fs) s))%nat /\
  forall k, loop E fs (S k) s = loop E fs k (final (cycle E fs) s).
Proof.
  intros Hc Ht Hi Hi1.
  pose proof (log_sensor_photo_failed E fs s _ _ (save_photo_capture_fail E fs s Hc)) as Hlog.
  set (s1 := set_fb _ _) in Hlog.
  assert (Hc1 : clock s1 = clock s) by reflexivity.
  destruct (turn_on_fan_if_hot_clock E fs s1 temp) as [Hok Hclk]; [by rewrite Hc1 | by rewrite Hc1|].
  unfold outcome, final in Hok, Hclk.
  destruct (turn_on_fan_if_hot E fs s1) as [r2 s2] eqn:Hf. simpl in Hok, Hclk. subst r2. assert (Hi2 : env_interrupt E (clock s2) = false) by (destruct Hclk as [-> | ->]; done).
  assert (Hst : store_fields s2 = store_fields s).
  { pose proof (turn_on_fan_if_hot_keeps_store E fs s1) as H. by rewrite Hf in H. }
  assert (Hcyc : cycle E fs s = (Ok tt, set_clock (clock s2 + log_interval) s2)).
  { unfold cycle. rewrite (bind_Ok _ _ _ _ _ Hlog), (bind_Ok _ _ _ _ _ Hf). by apply sleep_run. }
  unfold outcome, final. rewrite Hcyc. simpl. split_and!; [done | done | destruct Hclk; lia |].
  intros k. simpl. by rewrite (bind_Ok _ _ _ _ _ Hcyc).
Qed.

(** C23. [display_error_led] assigns a local [is_log_save_success], so
    after a successful cycle the module flag stays [True] through later
    errors.  In a cycle whose camera fails while the fan runs in a cold
    greenhouse, the error lights pixel (0,0) red, and the [stop_fan] of
    the same cycle calls [display_success_led], which paints it green: the
    cycle that stored nothing ends showing success. *)
Theorem cycle_error_shows_success E fs s temp :
  env_capture E (clock s) = CapFail ->
  env_sensor E RTemperature (clock s) = Some temp ->
  Qltb temp turn_on_fan_at_temp = true -> env_interrupt E (clock s) = false ->
  is_fan_on s = true -> is_log_save_success s = true -> fb_wf s ->
  pixel (final (log_sensor E fs) s) 0 0 = Some red /\
  pixel (final (cycle E fs) s) 0 0 = Some green.
Proof.
  intros Hc Ht Hcold Hi Hon Hok Hwf.
  pose proof (log_sensor_photo_failed E fs s _ _ (save_photo_capture_fail E fs s Hc)) as Hlog.
  set (s1 := set_fb _ _) in Hlog.
  split; [unfold final; rewrite Hlog; by apply (pixel00_insert (set_stdout _ s))|].
  assert (Hf : turn_on_fan_if_hot E fs s1 =
    stop_fan E (set_stdout (stdout s1 ++ ["fan off at " +:+ fs (c_to_f temp) +:+ "F"]) s1)).
  { rewrite (turn_on_fan_if_hot_run E fs s1 temp Ht). unfold s1. simpl. by rewrite Hon, Hcold. }
  rewrite stop_fan_run in Hf. simpl in Hf. rewrite Hi, display_success_led_run in Hf.
  simpl in Hf. rewrite Hok in Hf.
  unfold final, cycle. rewrite (bind_Ok _ _ _ _ _ Hlog), (bind_Ok _ _ _ _ _ Hf).
  unfold pixel. rewrite (sleep_keeps_fb E). simpl.
  apply list_lookup_insert_eq. rewrite !length_insert. unfold fb_wf in Hwf. lia.
Qed.

(** ** A refused record is fatal *)

Lemma loop_first_raises E fs k s e s1 :
  log_sensor E fs s = (Raise e, s1) -> loop E fs (S k) s = (Raise e, s1).
Proof.
  intros Hl. simpl. apply bind_Raise. unfold cycle. apply bind_Raise, Hl.
Qed.

(** C18. When DynamoDB refuses the first record, the program does not
    retry and does not go on to the thermostat or the sleep: it exits
    with code 0 in the same second, with pixel (0,0) red, neither the
    table nor the log changed, and the fan flag, relay and animation as
    they were (the thermostat did not run). *)
Theorem main_put_error_fatal E fs k s n chunks :
  env_capture E (clock s) = CapOk n -> env_upload E (clock s) = UpOk chunks -> n <> 0%nat ->
  reads_ok E s = true -> env_put_ok E (clock s) = false -> fb_wf s ->
  outcome (main E fs (S k)) s = Raise (SystemExit 0) /\
  store_fields (final (main E fs (S k)) s) = store_fields s /\
  clock (final (main E fs (S k)) s) = clock s /\
  fan_fields (final (main E fs (S k)) s) = fan_fields s /\
  pixel (final (main E fs (S k)) s) 0 0 = Some red.
Proof.
  intros Hc Hu Hn Hr Hp Hwf.
  destruct (save_photo_uploaded E fs s n chunks Hc Hu Hn) as [out Hsave].
  pose proof (log_sensor_photo_saved _ _ _ _ _ Hsave) as Hlog.
  rewrite log_record_put_fail in Hlog; [| by erewrite reads_ok_clock | done].
  unfold outcome, final.
  rewrite (main_loop_raised _ _ _ _ _ _ (loop_first_raises E fs k s _ _ Hlog)).
  rewrite main_handler_run, bool_decide_false by done. cbn [fst snd].
  split_and!; try reflexivity.
  unfold pixel. simpl. apply list_lookup_insert_eq. unfold fb_wf in Hwf. simpl. lia.
Qed.

(** ** Along any run, the log only grows *)

(** [s'] extends [s]: [./log.txt] of [s] is a prefix of that of [s'], no
    key left the table, and the clock did not go back. *)
Definition hist_le (s s' : St) : Prop :=
  (exists suffix, file_text s' log_file = file_text s log_file +:+ suffix) /\
  dom (table s) ⊆ dom (table s') /\ (clock s <= clock s')%nat.

#[export] Instance hist_le_refl : Reflexive hist_le.
Proof. intros s. split_and!; [exists EmptyString; by rewrite str_app_nil_r | done | lia]. Qed.

#[export] Instance hist_le_trans : Transitive hist_le.
Proof.
  intros s1 s2 s3 ([a Ha] & Hd1 & Hc1) ([b Hb] & Hd2 & Hc2). split_and!.
  - exists (a +:+ b). by rewrite Hb, Ha, str_app_assoc.
  - by etrans.
  - lia.
Qed.

Definition hist_fields (s : St) := (text_files s, table s, clock s).

Lemma mono_hist_keeps {A} (m : M A) : keeps hist_fields m -> mono hist_le m.
Proof.
  intros Hk. eapply mono_keeps; [|exact Hk]. intros s s' H. unfold hist_fields in H.
  injection H as Ht Hx Hc. split_and!.
  - exists EmptyString. unfold file_text. by rewrite Ht, str_app_nil_r.
  - by rewrite Hx.
  - lia.
Qed.

Lemma keeps_ctl_hist {A} (m : M A) : keeps ctl_fields m -> keeps hist_fields m.
Proof.
  intros H s. specialize (H s). unfold ctl_fields in H. unfold hist_fields.
  injection H as _ _ _ _ _ _ Ht Hx Hc. by rewrite Ht, Hx, Hc.
Qed.

Lemma sleep_mono E n : mono hist_le (sleep E n).
Proof.
  intros s. unfold sleep. case_match; simpl; [reflexivity|].
  split; [|split]; simpl; [exists EmptyString; by rewrite str_app_nil_r | done | lia].
Qed.

Lemma put_item_mono E i : mono hist_le (put_item E i).
Proof.
  intros s. unfold put_item. repeat case_match; simpl; try reflexivity.
  split; [|split]; simpl; [exists EmptyString; by rewrite str_app_nil_r | | done].
  rewrite dom_insert_L. set_solver.
Qed.

Lemma append_file_mono E p l : mono hist_le (append_file E p l).
Proof.
  intros s. unfold append_file. case_match; simpl; [|reflexivity].
  split; [|split]; simpl; [| done | done]. unfold file_text at 1. simpl.
  destruct (decide (p = log_file)) as [->|Hne].
  - rewrite lookup_insert_eq. by eexists.
  - rewrite lookup_insert_ne by done. exists EmptyString. by rewrite str_app_nil_r.
Qed.

#[export] Hint Resolve sleep_mono put_item_mono append_file_mono : pyg.
#[export] Hint Extern 1 (mono hist_le _) =>
  (apply mono_hist_keeps;
   first [solve [eauto 10 with pyg] | apply keeps_ctl_hist; solve [eauto 10 with pyg]]) : pyg.
#[export] Hint Extern 1 (Reflexive hist_le) => exact hist_le_refl : pyg.
#[export] Hint Extern 1 (Transitive hist_le) => exact hist_le_trans : pyg.

Section RunMono.
Context (E : Env) (fs : Q -> string).

Lemma turn_on_fan_if_hot_mono : mono hist_le (turn_on_fan_if_hot E fs).
Proof.
  unfold turn_on_fan_if_hot, start_fan, stop_fan, fan_on, fan_off, fan_animation_play,
    fan_animation_stop, display_success_led.
  eauto 20 with pyg.
Qed.

Lemma log_record_mono x : mono hist_le (log_record E fs x).
Proof.
  destruct x as [[now pf] pp]. unfold log_record, display_success_led. eauto 40 with pyg.
Qed.

Lemma log_sensor_mono : mono hist_le (log_sensor E fs).
Proof.
  unfold log_sensor. apply mono_bind; [exact hist_le_trans| |].
  - apply mono_hist_keeps, keeps_ctl_hist. apply keeps_try.
    + apply keeps_bind; [apply save_photo_keeps_ctl | auto with pyg].
    + intros e. auto with pyg.
  - intros [x|]; [apply log_record_mono | apply mono_ret, hist_le_refl].
Qed.

Lemma loop_mono fuel : mono hist_le (loop E fs fuel).
Proof.
  induction fuel as [|fuel IH]; simpl; [apply mono_ret, hist_le_refl|].
  apply mono_bind; [exact hist_le_trans | | intros []; exact IH].
  unfold cycle. apply mono_bind; [exact hist_le_trans | apply log_sensor_mono |]. intros [].
  apply mono_bind; [exact hist_le_trans | apply turn_on_fan_if_hot_mono |]. intros [].
  apply sleep_mono.
Qed.
End RunMono.

(** C19. Along every run of [main], whatever the world does and however
    it ends: the text of [./log.txt] at the start is a prefix of its
    text at the end (lines are only appended, never rewritten or
    truncated), no key ever leaves the DynamoDB table, and the clock
    never goes back. *)
Theorem main_log_append_only E fs fuel s :
  hist_le s (final (main E fs fuel) s).
Proof.
  unfold final. revert s. change (mono hist_le (main E fs fuel)).
  unfold main. apply mono_bind; [exact hist_le_trans | |].
  - apply mono_try; [exact hist_le_trans | |].
    + apply mono_bind; [exact hist_le_trans | apply loop_mono | intros; apply mono_ret, hist_le_refl].
    + intros e. apply mono_hist_keeps, keeps_ctl_hist. unfold main_handler. auto 10 with pyg.
  - intros []; [apply mono_ret | apply mono_raise]; apply hist_le_refl.
Qed.

(** ** Runs where everything succeeds *)

Lemma record_env_ok_temp E s :
  record_env_ok E s = true -> exists t, env_sensor E RTemperature (clock s) = Some t.
Proof.
  unfold record_env_ok, reads_ok. rewrite !andb_true_iff. intros [[[[[Hr _] _] _] _] _].
  simpl in Hr. rewrite !andb_true_iff in Hr. destruct Hr as (_ & _ & _ & Ht & _).
  apply bool_decide_eq_true in Ht. destruct Ht as [t Ht]. by exists t.
Qed.

Lemma record_env_ok_intr E s :
  record_env_ok E s = true -> env_interrupt E (clock s) = false.
Proof. unfold record_env_ok. rewrite !andb_true_iff. by intros [_ ?%negb_true_iff]. Qed.

(** The world answers every call at every moment, and each photo is
    written and uploaded whole. *)
Definition always_ok (E : Env) : Prop :=
  (forall s, record_env_ok E s = true) /\
  (forall t, exists n chunks, env_capture E t = CapOk n /\ n <> 0%nat /\ env_upload E t = UpOk chunks).

Lemma cycle_success E fs s :
  always_ok E ->
  exists item s', cycle E fs s = (Ok tt, s') /\
    table s' = <[env_utcnow E (clock s) := item]> (table s) /\
    file_text s' log_file = file_text s log_file +:+ (log_line item +:+ newline) /\
    (clock s < clock s')%nat.
Proof.
  intros [Hok Hcap]. destruct (Hcap (clock s)) as (n & chunks & Hc & Hn & Hu).
  destruct (log_sensor_full_run E fs s n chunks Hc Hu Hn (Hok s)) as (out & item & _ & _ & Hl).
  set (s1 := record_state _ _ item) in Hl.
  assert (Htab : table s1 = <[env_utcnow E (clock s) := item]> (table s)) by reflexivity.
  assert (Hlog : file_text s1 log_file = file_text s log_file +:+ (log_line item +:+ newline))
    by exact (record_state_log _ _ _).
  assert (Hclk : clock s1 = (clock s + 2)%nat) by reflexivity.
  clearbody s1.
  destruct (record_env_ok_temp E s1 (Hok s1)) as [temp Ht].
  destruct (turn_on_fan_if_hot_clock E fs s1 temp Ht (record_env_ok_intr E s1 (Hok s1))) as [Hf Hclk2].
  pose proof (turn_on_fan_if_hot_keeps_store E fs s1) as Hst.
  unfold outcome, final in *. destruct (turn_on_fan_if_hot E fs s1) as [r2 s2] eqn:Hf2.
  simpl in *. subst r2.
  exists item, (set_clock (clock s2 + log_interval) s2). split_and!.
  - unfold cycle. rewrite (bind_Ok _ _ _ _ _ Hl), (bind_Ok _ _ _ _ _ Hf2).
    apply sleep_run, record_env_ok_intr, Hok.
  - simpl. unfold store_fields in Hst. injection Hst as Ht2 Hx2. by rewrite Ht2, Htab.
  - unfold file_text. simpl. unfold store_fields in Hst. injection Hst as Ht2 Hx2. rewrite Hx2.
    by fold (file_text s1 log_file); rewrite Hlog.
  - simpl. unfold log_interval. destruct Hclk2; lia.
Qed.

(** C20. In a world where every call succeeds and the clock prints
    differently at different seconds, [n] cycles store exactly [n] new
    records (the table grows by [n] keys) and append exactly [n] lines
    to [./log.txt], provided no key of the table is a time still to
    come. *)
Theorem loop_one_record_per_cycle E fs n s :
  always_ok E ->
  (forall t1 t2, env_utcnow E t1 = env_utcnow E t2 -> t1 = t2) ->
  (forall t, (clock s <= t)%nat -> table s !! env_utcnow E t = None) ->
  outcome (loop E fs n) s = Ok tt /\
  size (table (final (loop E fs n) s)) = (size (table s) + n)%nat /\
  count_char nl (file_text (final (loop E fs n) s) log_file) =
    (count_char nl (file_text s log_file) + n)%nat.
Proof.
  intros Hall Hinj. unfold outcome, final. revert s.
  induction n as [|n IH]; intros s Hfresh; simpl; [split_and!; [done|lia|lia]|].
  destruct (cycle_success E fs s Hall) as (item & s' & Hcyc & Htab & Hlog & Hclk).
  rewrite (bind_Ok _ _ _ _ _ Hcyc).
  destruct (IH s') as (Hok & Hsize & Hcount).
  { intros t Ht. rewrite Htab, lookup_insert_ne; [apply Hfresh; lia|].
    intros Heq%Hinj. lia. }
  split_and!; [done | |].
  - rewrite Hsize, Htab, map_size_insert_None; [lia|]. apply Hfresh. lia.
  - rewrite Hcount, Hlog, !count_char_app. pose proof (log_line_newlines item) as H1.
    rewrite count_char_app in H1. lia.
Qed.

(** ** Witnesses *)

Definition env_interrupted : Env := scenario_env 20 (CapOk 1000) (UpOk [1000%nat]) true true.

Lemma main_interrupt_graceful_witness :
  loop env_interrupted sample_float_str 1 s_init =
    (Raise KeyboardInterrupt, snd (loop env_interrupted sample_float_str 1 s_init)) /\
  outcome (main env_interrupted sample_float_str 1) s_init = Raise (SystemExit 0).
Proof.
  assert (Hl : loop env_interrupted sample_float_str 1 s_init =
    (Raise KeyboardInterrupt, snd (loop env_interrupted sample_float_str 1 s_init)))
    by (vm_compute; reflexivity).
  split; [exact Hl|]. apply (main_interrupt_graceful _ _ _ _ _ Hl).
Defined.

Lemma main_fatal_error_witness :
  let e := ClientError "ProvisionedThroughputExceededException" in
  loop env_put_refused sample_float_str 1 s_init =
    (Raise e, snd (loop env_put_refused sample_float_str 1 s_init)) /\
  fb_wf (snd (loop env_put_refused sample_float_str 1 s_init)) /\
  outcome (main env_put_refused sample_float_str 1) s_init = Raise (SystemExit 0).
Proof.
  intros e.
  assert (Hl : loop env_put_refused sample_float_str 1 s_init =
    (Raise e, snd (loop env_put_refused sample_float_str 1 s_init))) by (vm_compute; reflexivity).
  assert (Hw : fb_wf (snd (loop env_put_refused sample_float_str 1 s_init)))
    by (vm_compute; reflexivity).
  split_and!; [exact Hl | exact Hw |].
  apply (main_fatal_error _ _ _ _ _ _ Hl ltac:(discriminate) Hw).
Defined.

Lemma cycle_capture_fail_continues_witness :
  env_capture env_cam_fail (clock s_init) = CapFail /\
  outcome (cycle env_cam_fail sample_float_str) s_init = Ok tt.
Proof.
  split; [reflexivity|].
  apply (cycle_capture_fail_continues env_cam_fail sample_float_str s_init 20
           eq_refl eq_refl eq_refl eq_refl).
Defined.

Lemma main_put_error_fatal_witness :
  reads_ok env_put_refused s_init = true /\ fb_wf s_init /\
  outcome (main env_put_refused sample_float_str 3) s_init = Raise (SystemExit 0).
Proof.
  split_and!; [reflexivity | exact s_init_fb_wf |].
  apply (main_put_error_fatal env_put_refused sample_float_str 2 s_init 1000 [1000%nat]
           eq_refl eq_refl ltac:(lia) eq_refl eq_refl s_init_fb_wf).
Defined.

(** A world where everything succeeds and the clock prints as a tally. *)
Fixpoint tally (t : nat) : string :=
  match t with O => EmptyString | S t => String "x" (tally t) end.

Lemma tally_length t : String.length (tally t) = t.
Proof. induction t; simpl; auto. Qed.

Definition env_tally : Env :=
  mkEnv (fun _ _ => Some 20) (env_vcgencmd (calm_env 20)) (env_thermal_zone (calm_env 20))
    (fun _ => CapOk 1000) (fun _ => UpOk [1000%nat]) (fun _ => true) (fun _ => true)
    tally (fun _ => false).

Lemma env_tally_always_ok : always_ok env_tally.
Proof. split; [intros s; reflexivity | intros t; exists 1000%nat, [1000%nat]; by split_and!]. Qed.

Lemma tally_inj t1 t2 : env_utcnow env_tally t1 = env_utcnow env_tally t2 -> t1 = t2.
Proof. simpl. intros H. by rewrite <- (tally_length t1), <- (tally_length t2), H. Qed.

Lemma loop_one_record_per_cycle_witness :
  always_ok env_tally /\
  size (table (final (loop env_tally sample_float_str 3) s_init)) = 3%nat.
Proof.
  split; [exact env_tally_always_ok|].
  destruct (loop_one_record_per_cycle env_tally sample_float_str 3 s_init env_tally_always_ok
              tally_inj (fun t _ => eq_refl)) as (_ & Hsize & _).
  exact Hsize.
Defined.

(** After a successful cycle the fan runs in a cold greenhouse. *)
Definition s_after_success : St := set_is_log_save_success true (final start_fan s_init).

Lemma cycle_error_shows_success_witness :
  is_fan_on s_after_success = true /\ is_log_save_success s_after_success = true /\
  pixel (final (cycle env_cam_fail sample_float_str) s_after_success) 0 0 = Some green.
Proof.
  split; [reflexivity|]. split; [reflexivity|].
  destruct (cycle_error_shows_success env_cam_fail sample_float_str s_after_success 20
              eq_refl eq_refl ltac:(vm_compute; reflexivity) eq_refl eq_refl eq_refl
              s_init_fb_wf) as [_ H].
  exact H.
Defined.
