(* ===== verification/Race.v ===== *)
(** * The main loop and the joystick thread, interleaved

    The Sense HAT library calls [on_joy_up] on its own thread while the
    main thread runs [turn_on_fan_if_hot] (spec section 5); both read and
    write [is_fan_on], the relay on GPIO 17 and the animation with no lock.
    Here each handler is a [thread]: a sequence of atomic statements
    ([TAct], one Python statement that changes the state) and reads of the
    state that choose the continuation ([TRead], a Python condition).  The
    granularity is the source's: [turn_on_fan_if_hot] reads the
    temperature, tests [is_fan_on] in the [if] and reads it again in the
    [elif]; [start_fan] and [stop_fan] are their three or five
    statements.

    [run_thread] runs one thread alone; [thread_refines_*] show that it
    computes what the sequential definitions of [Fan] and [Joystick]
    compute, so the threads are the code and not a new model.  [cstep]
    interleaves the two threads one statement at a time.  The joystick
    thread never sees a keyboard interrupt (Python delivers signals to the
    main thread only): its environment is [no_interrupts E].

    The theorems: an interleaving exists that leaves [is_fan_on] true with
    the relay off ([race_breaks_fan_consistency]); from such a state the
    thermostat never switches the relay on however hot it gets
    ([stuck_fan_stays_off]).  The spec (section 5) asks for a lock that
    the code does not have; the lock is not modelled. *)

From S2P Require Import Prelude PyStr Hardware Status Fan Joystick.

Local Open Scope string_scope.

(** ** Threads *)

Inductive thread : Type :=
  | TDone
  | TAct (f : St -> St) (k : thread)
  | TRead (k : St -> thread).

(** The state a statement leaves, for statements that cannot raise. *)
Definition act_of (m : M unit) : St -> St := fun s => snd (m s).

Definition no_interrupts (E : Env) : Env :=
  mkEnv (env_sensor E) (env_vcgencmd E) (env_thermal_zone E) (env_capture E)
    (env_upload E) (env_put_ok E) (env_fs_ok E) (env_utcnow E) (fun _ => false).

Section Threads.
Context (E : Env) (py_str_float : Q -> string).

(** Lines 150-154, statement by statement. *)
Definition start_fan_thread (k : thread) : thread :=
  TAct (set_is_fan_on true) (TAct (act_of fan_on) (TAct (act_of fan_animation_play) k)).

(** Lines 156-162, statement by statement. *)
Definition stop_fan_thread (k : thread) : thread :=
  TAct (set_is_fan_on false) (TAct (act_of fan_off) (TAct (act_of fan_animation_stop)
    (TAct (act_of (sleep E 1)) (TAct (act_of display_success_led) k)))).

(** Lines 174-179 for a release. *)
Definition on_joy_up_thread : thread :=
  TRead (fun s => if negb (is_fan_on s) then start_fan_thread TDone else stop_fan_thread TDone).

(** Lines 164-171 when the temperature can be read: the temperature, the
    [if] and the [elif] are three reads. *)
Definition turn_on_fan_if_hot_thread : thread :=
  TRead (fun s0 =>
    match env_sensor E RTemperature (clock s0) with
    | None => TDone
    | Some temp =>
        TRead (fun s1 =>
          if negb (is_fan_on s1) && Qltb turn_on_fan_at_temp temp then
            TAct (act_of (print ("fan on at " +:+ py_str_float (c_to_f temp) +:+ "F")))
              (start_fan_thread TDone)
          else TRead (fun s2 =>
            if is_fan_on s2 && Qltb temp turn_on_fan_at_temp then
              TAct (act_of (print ("fan off at " +:+ py_str_float (c_to_f temp) +:+ "F")))
                (stop_fan_thread TDone)
            else TDone))
    end).
End Threads.

(** One thread alone, with one unit of fuel per statement. *)
Fixpoint run_thread (fuel : nat) (t : thread) (s : St) : St * thread :=
  match fuel, t with
  | O, _ => (s, t)
  | S _, TDone => (s, TDone)
  | S f, TAct g k => run_thread f k (g s)
  | S f, TRead k => run_thread f (k s) s
  end.

(** ** Interleaving *)

Record config := mkConfig { c_st : St; c_main : thread; c_joy : thread }.

Inductive tstep : St -> thread -> St -> thread -> Prop :=
  | ts_act s f k : tstep s (TAct f k) (f s) k
  | ts_read s k : tstep s (TRead k) s (k s).

Inductive cstep : config -> config -> Prop :=
  | cs_main s tm tj s' tm' :
      tstep s tm s' tm' -> cstep (mkConfig s tm tj) (mkConfig s' tm' tj)
  | cs_joy s tm tj s' tj' :
      tstep s tj s' tj' -> cstep (mkConfig s tm tj) (mkConfig s' tm tj').

Inductive star {A} (R : A -> A -> Prop) : A -> A -> Prop :=
  | star_refl a : star R a a
  | star_step a b c : R a b -> star R b c -> star R a c.

Lemma star_trans {A} (R : A -> A -> Prop) a b c : star R a b -> star R b c -> star R a c.
Proof. induction 1; eauto using star. Qed.

#[export] Hint Constructors tstep cstep star : pyg.

(** ** Each thread alone computes what the sequential code computes *)

Lemma run_thread_act f g k s : run_thread (S f) (TAct g k) s = run_thread f k (g s).
Proof. reflexivity. Qed.

Lemma run_thread_read f k s : run_thread (S f) (TRead k) s = run_thread f (k s) s.
Proof. reflexivity. Qed.

Lemma run_start_fan_thread f k s :
  run_thread (3 + f) (start_fan_thread k) s = run_thread f k (snd (start_fan s)).
Proof. reflexivity. Qed.

Lemma run_stop_fan_thread E f k s :
  env_interrupt E (clock s) = false ->
  run_thread (5 + f) (stop_fan_thread E k) s = run_thread f k (snd (stop_fan E s)).
Proof.
  intros Hi. rewrite stop_fan_run, Hi. cbn -[display_success_led].
  unfold act_of at 2, sleep. cbn -[display_success_led]. by rewrite Hi.
Qed.

(** The joystick thread is [on_joy_up] on a release. *)
Lemma on_joy_up_thread_refines E ev s :
  is_released ev = true ->
  run_thread 7 (on_joy_up_thread (no_interrupts E)) s =
    (final (on_joy_up (no_interrupts E) ev) s, TDone).
Proof.
  intros Hr. unfold final, on_joy_up. rewrite Hr. unfold when, bind at 1, gets.
  cbn [run_thread on_joy_up_thread].
  destruct (is_fan_on s); cbn [negb].
  - exact (run_stop_fan_thread (no_interrupts E) 1 TDone s eq_refl).
  - exact (run_start_fan_thread 3 TDone s).
Qed.

(** The main thread's part is [turn_on_fan_if_hot] when no interrupt
    arrives during its sleep. *)
Lemma turn_on_fan_if_hot_thread_refines E fs s :
  env_interrupt E (clock s) = false ->
  run_thread 10 (turn_on_fan_if_hot_thread E fs) s =
    (final (turn_on_fan_if_hot E fs) s, TDone).
Proof.
  intros Hi. unfold final, turn_on_fan_if_hot_thread. rewrite run_thread_read.
  destruct (env_sensor E RTemperature (clock s)) as [temp|] eqn:Ht;
    [|by rewrite turn_on_fan_if_hot_read_error].
  rewrite (turn_on_fan_if_hot_run E fs s temp Ht), run_thread_read.
  destruct (negb (is_fan_on s) && Qltb turn_on_fan_at_temp temp); [reflexivity|].
  rewrite run_thread_read.
  destruct (is_fan_on s && Qltb temp turn_on_fan_at_temp); [|reflexivity].
  rewrite print_then, run_thread_act.
  exact (run_stop_fan_thread E 1 TDone (set_stdout (stdout s ++ ["fan off at " +:+ fs (c_to_f temp) +:+ "F"]) s) Hi).
Qed.

(** ** The race *)

Ltac main_step := eapply star_step; [apply cs_main; constructor|]; cbn beta iota.
Ltac joy_step := eapply star_step; [apply cs_joy; constructor|]; cbn beta iota.

(** A cold greenhouse (20 C) with the fan running. *)
Definition E_cold : Env := calm_env 20.
Definition s_fan_on : St := final start_fan s_init.

Definition race_start : config :=
  mkConfig s_fan_on (turn_on_fan_if_hot_thread E_cold sample_float_str)
    (on_joy_up_thread (no_interrupts E_cold)).

(** C21. The two handlers race: starting from a consistent state with the
    fan on in a cold greenhouse, the main thread decides to stop the fan
    and clears [is_fan_on]; the stick thread, handling a release, reads the
    cleared flag and runs [start_fan] to the end; the main thread then
    switches the relay and the animation off.  Both threads finish, the
    flag says the fan is on and the relay is off. *)
Theorem race_breaks_fan_consistency :
  fan_consistent (c_st race_start) /\
  exists c, star cstep race_start c /\ c_main c = TDone /\ c_joy c = TDone /\
    is_fan_on (c_st c) = true /\ od_value (fan (c_st c)) = false /\
    ~ fan_consistent (c_st c).
Proof.
  split; [hnf; vm_compute; split_and!; reflexivity|].
  eexists. split.
  { (* main: the temperature, the [if], the [elif], the print, the flag *)
    do 5 main_step.
    (* stick: reads the cleared flag and runs [start_fan] *)
    do 4 joy_step.
    (* main: relay off, animation off, sleep, success LED *)
    do 4 main_step. apply star_refl. }
  vm_compute. split_and!; try reflexivity. intros (H & _). discriminate H.
Qed.

(** C22. In the state the race leaves (flag on, relay off), the thermostat
    is stuck: at any temperature above the threshold [turn_on_fan_if_hot]
    sees [is_fan_on] true, takes neither branch and returns without
    touching the relay, so the fan stays off however hot the greenhouse
    gets, until someone presses the stick. *)
Theorem stuck_fan_stays_off E fs s temp :
  env_sensor E RTemperature (clock s) = Some temp ->
  Qltb turn_on_fan_at_temp temp = true ->
  is_fan_on s = true ->
  turn_on_fan_if_hot E fs s = (Ok tt, s).
Proof.
  intros Ht Hhot Hon. rewrite (turn_on_fan_if_hot_run E fs s temp Ht), Hon. simpl.
  apply Qltb_spec in Hhot.
  assert (Hc : Qltb temp turn_on_fan_at_temp = false) by (apply Qltb_false, Qlt_le_weak, Hhot).
  by rewrite Hc.
Qed.

(** Witnesses *)
Definition s_stuck : St := act_of fan_off s_fan_on.

Lemma stuck_fan_stays_off_witness :
  env_sensor (calm_env 40) RTemperature (clock s_stuck) = Some 40%Q /\
  Qltb turn_on_fan_at_temp 40 = true /\ is_fan_on s_stuck = true /\
  od_value (fan s_stuck) = false /\
  turn_on_fan_if_hot (calm_env 40) sample_float_str s_stuck = (Ok tt, s_stuck).
Proof.
  split; [vm_compute; reflexivity|]. split; [vm_compute; reflexivity|].
  split; [vm_compute; reflexivity|]. split; [vm_compute; reflexivity|].
  apply (stuck_fan_stays_off (calm_env 40) sample_float_str s_stuck 40);
    vm_compute; reflexivity.
Defined.

